(** * pyRAPL: measurement sessions, result records and repeated-run aggregation

    A shallow embedding of [pyRAPL/measurement.py] and
    [pyRAPL/outputs/printoutput.py].

    - Counter readings, timestamps and iteration counts are Python integers: [Z].
    - Floating-point values are read under real-number semantics: [R], with one
      extra value for the not-a-number that the statistics produce on a sample
      that is too small.
    - Exceptions are values of [exn]; a computation that may raise returns
      [exn + A].
    - The clock, the sensor, the measured function and standard output are
      effects: they are threaded through a state-and-error monad [M] over a
      [World] that counts the reads and calls made so far and logs what has
      been handed to the output. *)

From Stdlib Require Import ZArith List String Ascii Bool Lia Reals Lra.
From Stdlib Require Import DecimalString DecimalNat Permutation.
Import ListNotations.

Open Scope string_scope.
Open Scope Z_scope.

(** ** Python values *)

Inductive exn_class :=
| AttributeError
| TypeError
| ValueError
| ImportError
| ModuleNotFoundError
| UnboundLocalError
| ZeroDivisionError
| KeyError
| IndexError.

Inductive exn := Raise (c : exn_class) (msg : string).

Definition exn_class_of (e : exn) : exn_class :=
  match e with Raise c _ => c end.

(** [except ImportError] also catches [ModuleNotFoundError], its subclass. *)
Definition is_import_error (e : exn) : bool :=
  match exn_class_of e with
  | ImportError | ModuleNotFoundError => true
  | _ => false
  end.

(** A Python number: an [int], or a [float] (a real, or not-a-number). *)
Inductive num :=
| Int (z : Z)
| Float (x : R)
| NaN.

(** [isinstance(v, float)] *)
Definition is_float (v : num) : bool :=
  match v with
  | Int _ => false
  | Float _ | NaN => true
  end.

(** [v / c] for a non-zero constant [c]: true division, always a float. *)
Definition div_const (v : num) (c : R) : num :=
  match v with
  | Int z => Float (IZR z / c)
  | Float x => Float (x / c)
  | NaN => NaN
  end.

(** ** The sentinel rule (measurement.py, lines 30-34 and 90-97) *)

(** [functools.reduce(lambda acc, x: acc or (x >= 0), energy_result, False)] *)
Definition empty_energy_result (energy_result : list Z) : bool :=
  fold_left (fun acc x => acc || (x >=? 0)) energy_result false.

(** [series if empty_energy_result(series) else None] *)
Definition series_or_none (series : list Z) : option (list Z) :=
  if empty_energy_result series then Some series else None.

(** The extended slice [l[0::2]]. *)
Fixpoint every_other {A : Type} (l : list A) : list A :=
  match l with
  | [] => []
  | [x] => [x]
  | x :: _ :: rest => x :: every_other rest
  end.

(** The extended slice [l[start::2]] for a start inside or at the end of [l]. *)
Definition slice_step2 {A : Type} (start : nat) (l : list A) : list A :=
  every_other (skipn start l).

(** ** Result records *)

Module Result.

(** Modelled from the spec: the [Result] class is imported from the package
    and is not among the sources.  Its fields are those of the spec's
    ResultRecord, in the order in which [create_result] passes them to the
    constructor; [None] is an absent (Python [None]) field. *)
Record t := mk {
  label : string;
  timestamp : num;
  duration : num;
  pkg : option (list num);
  dram : option (list num);
  duration_conf : option num;
  pkg_conf : option (list num);
  dram_conf : option (list num)
}.

End Result.

(** Modelled from the spec: the scaling operation [record / n] of the absent
    [Result] class.  The label and the timestamp are kept, the duration and
    each element of [pkg] and [dram] are divided by [n], the confidence fields
    are passed through; an absent series stays absent.  Dividing the float
    duration by zero raises, as every Python float division does. *)
Definition Result_truediv (r : Result.t) (n : Z) : exn + Result.t :=
  if n =? 0 then inl (Raise ZeroDivisionError "float division by zero")
  else
    inr (Result.mk
           (Result.label r)
           (Result.timestamp r)
           (div_const (Result.duration r) (IZR n))
           (option_map (map (fun j => div_const j (IZR n))) (Result.pkg r))
           (option_map (map (fun j => div_const j (IZR n))) (Result.dram r))
           (Result.duration_conf r)
           (Result.pkg_conf r)
           (Result.dram_conf r)).

(** ** The world and the monad of effects *)

(** What has happened so far: how often the clock and the sensor were read and
    the measured function was called, which values were handed to an output's
    [add] (a Python value: a record or [None]), and what was printed. *)
Record World := {
  w_time_reads : nat;
  w_energy_reads : nat;
  w_calls : nat;
  w_added : list (option Result.t);
  w_stdout : list string
}.

Definition world0 : World := Build_World 0 0 0 [] [].

(** A computation runs in a world and either raises or returns, leaving the
    world as it was at that point. *)
Definition M (A : Type) : Type := World -> (exn + A) * World.

Definition ret {A : Type} (a : A) : M A := fun w => (inr a, w).

Definition raise {A : Type} (e : exn) : M A := fun w => (inl e, w).

Definition bind {A B : Type} (m : M A) (k : A -> M B) : M B :=
  fun w =>
    match m w with
    | (inl e, w') => (inl e, w')
    | (inr a, w') => k a w'
    end.

Definition lift {A : Type} (r : exn + A) : M A :=
  match r with
  | inl e => raise e
  | inr a => ret a
  end.

Declare Scope py_scope.
Delimit Scope py_scope with py.
Notation "x <- m ;; k" := (bind m (fun x => k))
  (at level 61, m at next level, right associativity) : py_scope.
Notation "' pat <- m ;; k" := (bind m (fun x => match x with pat => k end))
  (at level 61, pat pattern, m at next level, right associativity) : py_scope.
Notation "m ;;; k" := (bind m (fun _ => k))
  (at level 61, right associativity) : py_scope.
Open Scope py_scope.

(** [for i in idx: s = body(i, s)], the loop variables threaded as [s]. *)
Fixpoint for_each {S : Type} (body : nat -> S -> M S) (idx : list nat) (s : S) : M S :=
  match idx with
  | [] => ret s
  | i :: rest => s' <- body i s ;; for_each body rest s'
  end.

(** [range(number)] *)
Definition range (number : Z) : list nat := seq 0 (Z.to_nat number).

(** Reading an attribute that was never assigned raises [AttributeError]. *)
Definition getattr {A : Type} (name : string) (field : option A) : M A :=
  match field with
  | Some a => ret a
  | None =>
      raise (Raise AttributeError
               ("'Measurement' object has no attribute '" ++ name ++ "'"))
  end.

(** Reading a local variable that was never bound raises [UnboundLocalError]. *)
Definition local {A : Type} (name : string) (var : option A) : M A :=
  match var with
  | Some a => ret a
  | None =>
      raise (Raise UnboundLocalError
               ("local variable '" ++ name ++ "' referenced before assignment"))
  end.

(** [print(s)] *)
Definition print (s : string) : M unit :=
  fun w =>
    (inr tt,
     Build_World (w_time_reads w) (w_energy_reads w) (w_calls w) (w_added w)
       (w_stdout w ++ [s])).

(** ** Outputs *)

(** The [Output] interface: one method, [add]. *)
Record Output := { add : option Result.t -> M unit }.

(** Calling [output.add(value)]: the call is logged, then the method runs. *)
Definition call_add (output : Output) (value : option Result.t) : M unit :=
  fun w =>
    add output value
      (Build_World (w_time_reads w) (w_energy_reads w) (w_calls w)
         (w_added w ++ [value]) (w_stdout w)).

(** How Python renders values as text; left open.  [ctime] stands for
    [time.ctime] on the timestamps it accepts: that it raises on a
    not-a-number or out-of-range timestamp is not modelled. *)
Record Formatting := {
  ctime : num -> string;              (* time.ctime(seconds) *)
  format : num -> string -> string;   (* format(value, spec) *)
  str_num : num -> string;            (* str(value) *)
  str_result : option Result.t -> string
}.

Definition nl : string := String (ascii_of_nat 10) EmptyString.
Definition tab : string := String (ascii_of_nat 9) EmptyString.
Definition rule : string := "-------------------------------".

(** The decimal text of an index, as an f-string renders it. *)
Definition decimal (i : nat) : string := NilEmpty.string_of_uint (Nat.to_uint i).

Section PrintOutput.

Variable F : Formatting.

(** The loop of [print_energy], from index [i] with [s] accumulated so far. *)
Fixpoint print_energy_from (i : nat) (energies : list (num * num)) (s : string)
  : string :=
  match energies with
  | [] => s
  | (energy, conf) :: rest =>
      print_energy_from (S i) rest
        (if is_float energy
         then s ++ nl ++ tab ++ "socket " ++ decimal i ++ " : "
                ++ format F (div_const energy 1e6) " e" ++ " J (±"
                ++ format F (div_const conf 1e6) " .4e" ++ ")"
         else s ++ nl ++ tab ++ "socket " ++ decimal i ++ " : "
                ++ str_num F energy ++ " uJ")
  end.

Definition print_energy (energies : list (num * num)) : string :=
  print_energy_from 0 energies "".

(** [zip(series, conf)]: the second argument must be iterable. *)
Definition zip_conf (series : list num) (conf : option (list num))
  : exn + list (num * num) :=
  match conf with
  | None => inl (Raise TypeError "'NoneType' object is not iterable")
  | Some c => inr (combine series c)
  end.

(** [format(value, spec)] with a non-empty [spec]: [None] does not take one. *)
Definition format_opt (value : option num) (spec : string) : exn + string :=
  match value with
  | None =>
      inl (Raise TypeError "unsupported format string passed to NoneType.__format__")
  | Some v => inr (format F v spec)
  end.

Definition _format_output (raw : bool) (result : option Result.t) : exn + string :=
  if raw then inr (str_result F result)
  else
    match result with
    | None => inl (Raise AttributeError "'NoneType' object has no attribute 'label'")
    | Some r =>
        match format_opt (Result.duration_conf r) " .4e" with
        | inl e => inl e
        | inr dconf =>
            let s := "Label : " ++ Result.label r ++ nl
                     ++ "Begin : " ++ ctime F (Result.timestamp r) ++ nl
                     ++ "Duration : " ++ format F (Result.duration r) ".4e"
                     ++ " s (±" ++ dconf ++ ")" in
            match
              match Result.pkg r with
              | None => inr s
              | Some p =>
                  match zip_conf p (Result.pkg_conf r) with
                  | inl e => inl e
                  | inr es => inr (s ++ nl ++ rule ++ nl ++ "PKG :" ++ print_energy es)
                  end
              end
            with
            | inl e => inl e
            | inr s1 =>
                match Result.dram r with
                | None => inr s1
                | Some d =>
                    match zip_conf d (Result.dram_conf r) with
                    | inl e => inl e
                    | inr es =>
                        inr ((s1 ++ nl ++ rule ++ nl ++ "DRAM :" ++ print_energy es)
                             ++ nl ++ rule)
                    end
                end
            end
        end
    end.

(** [PrintOutput.add]: [print(self._format_output(result))] *)
Definition PrintOutput_add (raw : bool) (result : option Result.t) : M unit :=
  s <- lift (_format_output raw result) ;; print s.

Definition PrintOutput (raw : bool) : Output := {| add := PrintOutput_add raw |}.

End PrintOutput.

(** ** Sample tables and their statistics *)

(** Elementwise difference of two counter snapshots.

    Modelled from the spec: the sensor and the type of its snapshots are not
    among the sources; the spec gives every snapshot the same List.length and the
    delta elementwise, so snapshots of different lengths are rejected. *)
Definition snapshot_sub (a b : list Z) : exn + list Z :=
  if (List.length a =? List.length b)%nat
  then inr (map (fun p => fst p - snd p) (combine a b))
  else inl (Raise ValueError "operands could not be broadcast together").

(** A [pandas.DataFrame] with integer cells: the column labels, and one entry
    per index value, [None] while the row still holds missing values. *)
Record DataFrame := {
  columns : list string;
  rows : list (option (list Z))
}.

(** [pd.DataFrame(index=index, columns=columns)]: every cell missing. *)
Definition DataFrame_new (index : list nat) (cols : list string) : DataFrame :=
  {| columns := cols; rows := map (fun _ => None) index |}.

Fixpoint set_nth {A : Type} (i : nat) (a : A) (l : list A) : list A :=
  match l, i with
  | [], _ => []
  | _ :: t, O => a :: t
  | x :: t, S j => x :: set_nth j a t
  end.

(** [df.iloc[i] = values] *)
Definition iloc_set (df : DataFrame) (i : nat) (values : list Z) : exn + DataFrame :=
  if (List.length (rows df) <=? i)%nat
  then inl (Raise IndexError "iloc cannot enlarge its target object")
  else if (List.length values =? List.length (columns df))%nat
  then inr {| columns := columns df; rows := set_nth i (Some values) (rows df) |}
  else inl (Raise ValueError "cannot set a row with mismatched columns").

(** The values of column [j] that are not missing, in row order. *)
Definition column_values (df : DataFrame) (j : nat) : list Z :=
  flat_map
    (fun row =>
       match row with
       | Some values =>
           match nth_error values j with
           | Some v => [v]
           | None => []
           end
       | None => []
       end)
    (rows df).

Fixpoint index_of (name : string) (cols : list string) : option nat :=
  match cols with
  | [] => None
  | c :: rest =>
      if String.eqb c name then Some O else option_map S (index_of name rest)
  end.

(** [df[name]], as the values of that column that are not missing. *)
Definition DataFrame_getitem (df : DataFrame) (name : string) : exn + list Z :=
  match index_of name (columns df) with
  | Some j => inr (column_values df j)
  | None => inl (Raise KeyError name)
  end.

Definition sum_R (xs : list R) : R := fold_right Rplus 0%R xs.

(** [series.mean(axis=0)]: missing values skipped, not-a-number when none is left. *)
Definition Series_mean (xs : list Z) : num :=
  match xs with
  | [] => NaN
  | _ => Float (sum_R (map IZR xs) / INR (List.length xs))
  end.

(** [series.std(axis=0)]: the sample standard deviation, one degree of freedom
    removed; not-a-number on fewer than two values. *)
Definition Series_std (xs : list Z) : num :=
  if (List.length xs <=? 1)%nat then NaN
  else
    let m := (sum_R (map IZR xs) / INR (List.length xs))%R in
    Float (sqrt (sum_R (map (fun x => ((IZR x - m) * (IZR x - m))%R) xs)
                 / (INR (List.length xs) - 1))).

(** [1.96 * std / denom], for a [denom] other than zero: the wrapper only
    reaches it with the square root of a positive count. *)
Definition conf_of (std : num) (denom : R) : num :=
  match std with
  | Int z => Float (1.96 * IZR z / denom)
  | Float s => Float (1.96 * s / denom)
  | NaN => NaN
  end.

(** Collect [f(df[column])] over the columns whose label starts with the prefix. *)
Fixpoint collect_columns (df : DataFrame) (f : list Z -> num)
    (column_prefix : string) (cols : list string) : exn + list num :=
  match cols with
  | [] => inr []
  | column :: rest =>
      if negb (prefix column_prefix column)
      then collect_columns df f column_prefix rest
      else
        match DataFrame_getitem df column with
        | inl e => inl e
        | inr xs =>
            match collect_columns df f column_prefix rest with
            | inl e => inl e
            | inr res => inr (f xs :: res)
            end
        end
  end.

(** [df.count(axis=0)[0]]: the number of values present in the first column. *)
Definition count0 (df : DataFrame) : exn + nat :=
  match columns df with
  | [] => inl (Raise IndexError "index 0 is out of bounds for axis 0 with size 0")
  | _ => inr (List.length (column_values df 0))
  end.

Definition stats : Type := (num * list num * list num * num * list num * list num)%type.

(** [_compute_stats] (measurement.py, lines 137-168). *)
Definition _compute_stats (df : DataFrame) : exn + stats :=
  let _compute_array_mean column_prefix :=
    collect_columns df Series_mean column_prefix (columns df) in
  match count0 df with
  | inl e => inl e
  | inr n =>
      let denom := sqrt (INR n) in
      let _compute_array_conf column_prefix :=
        collect_columns df (fun xs => conf_of (Series_std xs) denom)
          column_prefix (columns df) in
      match DataFrame_getitem df "Duration" with
      | inl e => inl e
      | inr dur =>
          match _compute_array_mean "Pkg" with
          | inl e => inl e
          | inr pkg_mean =>
              match _compute_array_mean "Dram" with
              | inl e => inl e
              | inr dram_mean =>
                  match _compute_array_conf "Pkg" with
                  | inl e => inl e
                  | inr pkg_conf =>
                      match _compute_array_conf "Dram" with
                      | inl e => inl e
                      | inr dram_conf =>
                          inr (Series_std dur, pkg_mean, dram_mean,
                               conf_of (Series_std dur) denom, pkg_conf, dram_conf)
                      end
                  end
              end
          end
      end
  end.

(** ** The environment of a run *)

(** What the program draws from outside: the [k]-th reading of the clock and
    of the sensor, the outcome of the [k]-th call of the measured function,
    whether the [pandas] package can be imported, and how text is rendered. *)
Record Env (V : Type) := {
  time_ns : nat -> Z;
  energy : nat -> list Z;
  func : nat -> exn + V;
  pandas_installed : bool;
  formatting : Formatting
}.

Arguments time_ns {V} _ _.
Arguments energy {V} _ _.
Arguments func {V} _ _.
Arguments pandas_installed {V} _.
Arguments formatting {V} _.

(** ** Measurement sessions (measurement.py, lines 37-122) *)

(** The attributes of a [Measurement] object; [None] is an attribute that was
    never assigned.  [_results] holds a Python value once assigned: a record,
    or [None]. *)
Record Measurement := {
  label : string;
  _output : Output;
  _energy_begin : option (list Z);
  _ts_begin : option Z;
  _results : option (option Result.t)
}.

Definition set_begin (self : Measurement) (e : list Z) (ts : Z) : Measurement :=
  {| label := label self; _output := _output self;
     _energy_begin := Some e; _ts_begin := Some ts;
     _results := _results self |}.

Definition set_results (self : Measurement) (r : option Result.t) : Measurement :=
  {| label := label self; _output := _output self;
     _energy_begin := _energy_begin self; _ts_begin := _ts_begin self;
     _results := Some r |}.

(** The [result] property. *)
Definition Measurement_result (self : Measurement) : exn + Result.t :=
  match _results self with
  | None =>
      inl (Raise AttributeError "'Measurement' object has no attribute '_results'")
  | Some None => inl (Raise AttributeError "No result measured yet.")
  | Some (Some r) => inr r
  end.

(** [x / 1000000000] where [x] may be [None]. *)
Definition div_opt (x : option num) (c : R) : exn + num :=
  match x with
  | None => inl (Raise TypeError "unsupported operand type(s) for /: 'NoneType' and 'int'")
  | Some v => inr (div_const v c)
  end.

(** [create_result]; the arguments of the constructor are evaluated in order. *)
Definition Measurement_create_result (self : Measurement)
    (duration : num) (pkg dram : option (list num))
    (duration_conf : option num) (pkg_conf dram_conf : option (list num))
  : M Measurement :=
  ts <- getattr "_ts_begin" (_ts_begin self) ;;
  dc <- lift (div_opt duration_conf 1000000000) ;;
  ret (set_results self
         (Some (Result.mk (label self)
                  (div_const (Int ts) 1000000000)
                  (div_const duration 1e9)
                  pkg dram (Some dc) pkg_conf dram_conf))).

(** [export] *)
Definition Measurement_export (self : Measurement) (output : option Output) : M unit :=
  let output_var := match output with None => _output self | Some o => o end in
  r <- getattr "_results" (_results self) ;;
  call_add output_var r.

(** [len(series)] and [*series] on a value that may be [None]. *)
Definition len_opt (series : option (list Z)) : exn + nat :=
  match series with
  | None => inl (Raise TypeError "object of type 'NoneType' has no len()")
  | Some s => inr (List.length s)
  end.

Definition unpack (series : option (list Z)) : exn + list Z :=
  match series with
  | None => inl (Raise TypeError "Value after * must be an iterable, not NoneType")
  | Some s => inr s
  end.

Section Run.

Variable V : Type.
Variable E : Env V.

(** [time_ns()] *)
Definition call_time_ns : M Z :=
  fun w =>
    (inr (time_ns E (w_time_reads w)),
     Build_World (S (w_time_reads w)) (w_energy_reads w) (w_calls w)
       (w_added w) (w_stdout w)).

(** [self._sensor.energy()] *)
Definition call_energy : M (list Z) :=
  fun w =>
    (inr (energy E (w_energy_reads w)),
     Build_World (w_time_reads w) (S (w_energy_reads w)) (w_calls w)
       (w_added w) (w_stdout w)).

(** [func(...)] *)
Definition call_func : M V :=
  fun w =>
    (func E (w_calls w),
     Build_World (w_time_reads w) (w_energy_reads w) (S (w_calls w))
       (w_added w) (w_stdout w)).

(** [Measurement(label, output)] *)
Definition Measurement_init (lbl : string) (output : option Output) : Measurement :=
  {| label := lbl;
     _output := match output with
                | Some o => o
                | None => PrintOutput (formatting E) false
                end;
     _energy_begin := None;
     _ts_begin := None;
     _results := None |}.

Definition Measurement_begin (self : Measurement) : M Measurement :=
  e <- call_energy ;;
  ts <- call_time_ns ;;
  ret (set_begin self e ts).

Definition Measurement_end (self : Measurement)
  : M (Z * option (list Z) * option (list Z)) :=
  ts_end <- call_time_ns ;;
  energy_end <- call_energy ;;
  energy_begin <- getattr "_energy_begin" (_energy_begin self) ;;
  delta <- lift (snapshot_sub energy_end energy_begin) ;;
  ts_begin <- getattr "_ts_begin" (_ts_begin self) ;;
  let duration := ts_end - ts_begin in
  let pkg := slice_step2 0 delta in
  let pkg := series_or_none pkg in
  let dram := slice_step2 1 delta in
  let dram := series_or_none dram in
  ret (duration, pkg, dram).

(** The import of [pandas]: it raises when the package is not installed. *)
Definition import_pandas : M unit :=
  if pandas_installed E then ret tt
  else raise (Raise ModuleNotFoundError "No module named 'pandas'").

(** [try: import pandas as pd / except ImportError: raise ImportError(...)] *)
Definition try_import_pandas : M unit :=
  fun w =>
    match import_pandas w with
    | (inl e, w') =>
        if is_import_error e
        then (inl (Raise ImportError "You need Pandas to use this method"), w')
        else (inl e, w')
    | (inr x, w') => (inr x, w')
    end.

(** The column labels of the sample table, fixed by the first run. *)
Definition sample_columns (k m : nat) : list string :=
  ["Duration"]
    ++ map (fun j => "Pkg_" ++ decimal j) (seq 0 k)
    ++ map (fun j => "Dram_" ++ decimal j) (seq 0 m).

(** The loop variables of the confidence policy: the session, and [df] and
    [val], unbound until first assigned. *)
Definition loop_state : Type := (Measurement * option DataFrame * option V)%type.

(** One iteration of the loop at lines 186-199. *)
Definition confidence_body (number : Z) (i : nat) (st : loop_state) : M loop_state :=
  let '(sensor, df, _) := st in
  sensor <- Measurement_begin sensor ;;
  val <- call_func ;;
  '(dur, pkg, dram) <- Measurement_end sensor ;;
  df <- (if (i =? 0)%nat
         then
           k <- lift (len_opt pkg) ;;
           m <- lift (len_opt dram) ;;
           ret (Some (DataFrame_new (range number) (sample_columns k m)))
         else ret df) ;;
  p <- lift (unpack pkg) ;;
  d <- lift (unpack dram) ;;
  df <- local "df" df ;;
  df <- lift (iloc_set df i (dur :: p ++ d)) ;;
  ret (sensor, Some df, Some val).

(** The loop of the global policy: [val = func(...)]. *)
Definition global_body (_ : nat) (val : option V) : M (option V) :=
  v <- call_func ;; ret (Some v).

(** [wrapper_measure] (lines 171-206) for a function called [name], decorated
    with [measureit(output=output, number=number, method=method)]. *)
Definition wrapper_measure (name : string) (output : option Output)
    (number : Z) (method : string) : M V :=
  let sensor := Measurement_init name output in
  '(sensor, val) <-
    (if String.eqb method "global" then
       sensor <- Measurement_begin sensor ;;
       val <- for_each global_body (range number) None ;;
       '(dur, pkg, dram) <- Measurement_end sensor ;;
       sensor <- Measurement_create_result sensor (Int dur)
                   (option_map (map Int) pkg) (option_map (map Int) dram)
                   None None None ;;
       r <- getattr "_results" (_results sensor) ;;
       r <- lift (match r with
                  | None =>
                      inl (Raise TypeError
                             "unsupported operand type(s) for /: 'NoneType' and 'int'")
                  | Some r => Result_truediv r number
                  end) ;;
       ret (set_results sensor (Some r), val)
     else if String.eqb method "confidence" then
       try_import_pandas ;;;
       '(sensor, df, val) <-
         for_each (confidence_body number) (range number) (sensor, None, None) ;;
       df <- local "df" df ;;
       '(dur, pkg, dram, dur_conf, pkg_conf, dram_conf) <- lift (_compute_stats df) ;;
       sensor <- Measurement_create_result sensor dur (Some pkg) (Some dram)
                   (Some dur_conf) (Some pkg_conf) (Some dram_conf) ;;
       ret (sensor, val)
     else raise (Raise ValueError "Unknown measurement method.")) ;;
  Measurement_export sensor None ;;;
  local "val" val.

(** Loading the module runs its top-level imports (lines 20-27), [pandas]
    among them, before anything it defines can be used. *)
Definition import_measurement : M unit := import_pandas.

(** A program that imports the module, decorates a function with
    [measureit] and calls it. *)
Definition decorated_call (name : string) (output : option Output)
    (number : Z) (method : string) : M V :=
  import_measurement ;;;
  wrapper_measure name output number method.

End Run.

(** ** Reading results *)

(** The real value of a number, when it has one. *)
Definition value_of (v : num) : option R :=
  match v with
  | Int z => Some (IZR z)
  | Float x => Some x
  | NaN => None
  end.

(** [x'] is [x] divided by [n]. *)
Definition scaled (n : Z) (x x' : num) : Prop :=
  value_of x' = option_map (fun v => (v / IZR n)%R) (value_of x).

(** A series divided elementwise by [n]; an absent series stays absent. *)
Definition series_scaled (n : Z) (s s' : option (list num)) : Prop :=
  match s, s' with
  | None, None => True
  | Some l, Some l' => Forall2 (scaled n) l l'
  | _, _ => False
  end.

(** ** Sample tables, as the confidence loop leaves them *)

(** What one run contributes: its duration and its two series. *)
Definition sample : Type := (Z * list Z * list Z)%type.

(** The row [dur, *pkg, *dram]. *)
Definition sample_row (s : sample) : list Z :=
  let '(dur, p, d) := s in dur :: p ++ d.

(** The table with columns for [k] package and [m] DRAM sockets once a row
    has been assigned for every run. *)
Definition sample_table (k m : nat) (samples : list sample) : DataFrame :=
  {| columns := sample_columns k m;
     rows := map (fun s => Some (sample_row s)) samples |}.

(** A run whose series have the widths of the table. *)
Definition well_shaped (k m : nat) (s : sample) : Prop :=
  List.length (snd (fst s)) = k /\ List.length (snd s) = m.

(** The [Duration], [Pkg_j] and [Dram_j] columns of the runs. *)
Definition durations (samples : list sample) : list Z :=
  map (fun s => fst (fst s)) samples.

Definition pkg_column (samples : list sample) (j : nat) : list Z :=
  map (fun s => nth j (snd (fst s)) 0) samples.

Definition dram_column (samples : list sample) (j : nat) : list Z :=
  map (fun s => nth j (snd s) 0) samples.

Definition pkg_name (j : nat) : string := "Pkg_" ++ decimal j.
Definition dram_name (j : nat) : string := "Dram_" ++ decimal j.

Section Runs.

Variable V : Type.
Variable E : Env V.
Variable w : World.

(** The world after [a] complete runs started in [w]. *)
Definition world_after (a : nat) : World :=
  Build_World (w_time_reads w + 2 * a) (w_energy_reads w + 2 * a) (w_calls w + a)
    (w_added w) (w_stdout w).

(** Run [i] started in [w] goes through: the function returns [v] and the run
    contributes the sample [s]. *)
Definition run_yields (i : nat) (v : V) (s : sample) : Prop :=
  func E (w_calls w + i) = inr v
  /\ fst (fst s) = time_ns E (w_time_reads w + 2 * i + 1)
                  - time_ns E (w_time_reads w + 2 * i)
  /\ exists delta,
       snapshot_sub (energy E (w_energy_reads w + 2 * i + 1))
                    (energy E (w_energy_reads w + 2 * i)) = inr delta
       /\ series_or_none (slice_step2 0 delta) = Some (snd (fst s))
       /\ series_or_none (slice_step2 1 delta) = Some (snd s).

(** The table while the loop is running: [a] rows assigned, the others missing. *)
Definition partial_table (k m n : nat) (smp : nat -> sample) (a : nat) : DataFrame :=
  {| columns := sample_columns k m;
     rows := (map (fun i => Some (sample_row (smp i))) (seq 0 a)
              ++ repeat None (n - a))%list |}.

End Runs.

(** Both domain series of a delta survive the sentinel rule. *)
Definition both_present (delta : list Z) : Prop :=
  series_or_none (slice_step2 0 delta) <> None
  /\ series_or_none (slice_step2 1 delta) <> None.

(** Nothing was handed to an output or printed between [w] and [w']. *)
Definition same_log (w w' : World) : Prop :=
  w_added w' = w_added w /\ w_stdout w' = w_stdout w.

(** A run that has raised: nothing was added, nothing returned. *)
Ltac failed_run :=
  let H := fresh in
  intros H; inversion H; subst; cbn; repeat split; intros; discriminate.

(** ** Concrete runs *)

Definition plain_formatting : Formatting :=
  {| ctime := fun _ => "<time>";
     format := fun _ _ => "<float>";
     str_num := fun _ => "<int>";
     str_result := fun _ => "<result>" |}.

(** One socket whose package counter advances by 10 and whose DRAM counter
    advances by 4 in every bracketed region, each region lasting 5 ns; the
    measured function returns the number of its earlier calls. *)
Definition steady_env (pandas : bool) : Env Z :=
  {| time_ns := fun k => 5 * Z.of_nat ((k + 1) / 2);
     energy := fun k => [10 * Z.of_nat ((k + 1) / 2); 4 * Z.of_nat ((k + 1) / 2)];
     func := fun k => inr (Z.of_nat k);
     pandas_installed := pandas;
     formatting := plain_formatting |}.

(** One socket whose DRAM reading is one lower at the end of every bracketed
    region than at its beginning: the DRAM delta of every run is [-1]. *)
Definition no_dram_env : Env Z :=
  {| time_ns := fun k => 5 * Z.of_nat ((k + 1) / 2);
     energy := fun k => [10 * Z.of_nat ((k + 1) / 2); - Z.of_nat (k mod 2)];
     func := fun k => inr (Z.of_nat k);
     pandas_installed := true;
     formatting := plain_formatting |}.

(** A record as the global policy means to build it: no confidence fields. *)
Definition record_without_conf : Result.t :=
  Result.mk "f" (Float 0) (Float 1) (Some [Int 5]) None None None None.

(** A record with every field present. *)
Definition record_with_conf : Result.t :=
  Result.mk "f" (Float 0) (Float 6) (Some [Int 12; Float 3]) (Some [Int 9])
    (Some (Float 1)) (Some [Float 2; Float 4]) (Some [Float 8]).

(** Two sockets: the package counters advance, the DRAM readings fall. *)
Definition two_socket_env : Env Z :=
  {| time_ns := fun k => 1000 + 500 * Z.of_nat k;
     energy := fun k => [100 + 30 * Z.of_nat k; 7 - Z.of_nat k;
                         200 + Z.of_nat k; -1 - Z.of_nat k];
     func := fun k => inr (Z.of_nat k);
     pandas_installed := true;
     formatting := plain_formatting |}.

(** The world after one reading of the clock and one of the sensor. *)
Definition world1 : World := Build_World 1 1 0 [] [].

Definition snapshot0 : list Z := [100; 7; 200; -1].

(** A session on which [begin] has run in [two_socket_env]. *)
Definition begun_session : Measurement :=
  {| label := "f";
     _output := PrintOutput plain_formatting false;
     _energy_begin := Some snapshot0;
     _ts_begin := Some 1000;
     _results := None |}.

(** ** Sessions as context managers (measurement.py, lines 69-79) *)

Section ContextManager.

Variable V : Type.
Variable E : Env V.

(** [__enter__]: [self.begin()] *)
Definition Measurement___enter__ (self : Measurement) : M Measurement :=
  Measurement_begin V E self.

(** [__exit__(self, exc_type)], called as it is written; [exc_type] is [None]
    when the block raised nothing. *)
Definition Measurement___exit__ (self : Measurement) (exc_type : option exn_class)
  : M unit :=
  Measurement_end V E self ;;;
  match exc_type with
  | None => Measurement_export self None
  | Some _ => ret tt
  end.

End ContextManager.

(** ** Snapshots, runs and records *)

(** The layout of a snapshot: the package and the DRAM reading of each socket
    in turn. *)
Fixpoint interleave {A : Type} (p d : list A) : list A :=
  match p, d with
  | x :: p', y :: d' => x :: y :: interleave p' d'
  | _, _ => []
  end.

(** Elementwise [a - b]. *)
Definition diff (a b : list Z) : list Z :=
  map (fun p => fst p - snd p) (combine a b).

(** A record can be rendered by [_format_output]: its duration has a
    confidence value and so has every series that is present. *)
Definition printable (r : Result.t) : Prop :=
  Result.duration_conf r <> None
  /\ (Result.pkg r <> None -> Result.pkg_conf r <> None)
  /\ (Result.dram r <> None -> Result.dram_conf r <> None).

(** [r] with other package fields. *)
Definition with_pkg (r : Result.t) (p c : option (list num)) : Result.t :=
  Result.mk (Result.label r) (Result.timestamp r) (Result.duration r)
    p (Result.dram r) (Result.duration_conf r) c (Result.dram_conf r).

(** [r] without its DRAM series. *)
Definition without_dram (r : Result.t) : Result.t :=
  Result.mk (Result.label r) (Result.timestamp r) (Result.duration r)
    (Result.pkg r) None (Result.duration_conf r) (Result.pkg_conf r)
    (Result.dram_conf r).

Section RunSamples.

Variable V : Type.
Variable E : Env V.
Variable w : World.

(** The delta of run [i] of a loop of sessions started in [w]. *)
Definition run_delta (i : nat) : list Z :=
  diff (energy E (w_energy_reads w + 2 * i + 1)) (energy E (w_energy_reads w + 2 * i)).

(** What run [i] contributes when both its series are present. *)
Definition run_sample (i : nat) : sample :=
  (time_ns E (w_time_reads w + 2 * i + 1) - time_ns E (w_time_reads w + 2 * i),
   slice_step2 0 (run_delta i), slice_step2 1 (run_delta i)).

End RunSamples.

(** The record the confidence policy builds from the samples of [n] runs, the
    last of them begun at [ts] (nanoseconds). *)
Definition confidence_record (name : string) (ts : Z) (k m : nat)
    (samples : list sample) : Result.t :=
  let denom := sqrt (INR (List.length samples)) in
  Result.mk name
    (div_const (Int ts) 1000000000)
    (div_const (Series_std (durations samples)) 1e9)
    (Some (map (fun j => Series_mean (pkg_column samples j)) (seq 0 k)))
    (Some (map (fun j => Series_mean (dram_column samples j)) (seq 0 m)))
    (Some (div_const (conf_of (Series_std (durations samples)) denom) 1000000000))
    (Some (map (fun j => conf_of (Series_std (pkg_column samples j)) denom) (seq 0 k)))
    (Some (map (fun j => conf_of (Series_std (dram_column samples j)) denom) (seq 0 m))).

(** The output a session exports to. *)
Definition chosen_output (F : Formatting) (output : option Output) : Output :=
  match output with
  | Some o => o
  | None => PrintOutput F false
  end.

(** An output that accepts every record and does nothing. *)
Definition null_output : Output := {| add := fun _ => ret tt |}.

(** A sensor whose readings never change; the DRAM entries hold the sentinel. *)
Definition idle_env : Env Z :=
  {| time_ns := fun k => 1000 + Z.of_nat k;
     energy := fun _ => [7; -1; 9; -1];
     func := fun k => inr (Z.of_nat k);
     pandas_installed := true;
     formatting := plain_formatting |}.

(** As [steady_env], with a measured function whose call number [j] raises. *)
Definition raising_env (j : nat) : Env Z :=
  {| time_ns := fun k => 5 * Z.of_nat ((k + 1) / 2);
     energy := fun k => [10 * Z.of_nat ((k + 1) / 2); 4 * Z.of_nat ((k + 1) / 2)];
     func := fun k => if (k =? j)%nat then inl (Raise KeyError "missing")
                      else inr (Z.of_nat k);
     pandas_installed := true;
     formatting := plain_formatting |}.

(** A record with two package readings and one confidence value. *)
Definition record_short_conf : Result.t :=
  Result.mk "f" (Float 0) (Float 6) (Some [Float 12; Float 3]) None
    (Some (Float 1)) (Some [Float 2]) None.

(** ** The sentinel rule *)

Lemma fold_or_true (l : list Z) :
  fold_left (fun acc x => acc || (x >=? 0)) l true = true.
Proof.
  induction l as [|x l IH]; simpl; auto.
Qed.

Lemma empty_energy_result_true (s : list Z) :
  empty_energy_result s = true <-> Exists (fun x => 0 <= x) s.
Proof.
  unfold empty_energy_result.
  induction s as [|x s IH]; simpl.
  - split; [discriminate | intros H; inversion H].
  - destruct (Z.geb_spec x 0) as [Hx|Hx]; simpl.
    + rewrite fold_or_true. split; [intros _; left; lia | reflexivity].
    + rewrite IH. split; intros H.
      * now right.
      * inversion H; subst; [lia | assumption].
Qed.

Lemma empty_energy_result_false (s : list Z) :
  empty_energy_result s = false <-> Forall (fun x => x < 0) s.
Proof.
  split.
  - intros H. apply Forall_forall. intros x Hin.
    destruct (Z.lt_ge_cases x 0) as [|Hge]; [assumption|].
    assert (Hex : Exists (fun y => 0 <= y) s) by (apply Exists_exists; eauto).
    apply empty_energy_result_true in Hex. congruence.
  - intros H. destruct (empty_energy_result s) eqn:Heq; [|reflexivity].
    apply empty_energy_result_true in Heq. apply Exists_exists in Heq.
    destruct Heq as [x [Hin Hx]].
    rewrite Forall_forall in H. specialize (H x Hin). lia.
Qed.

Lemma series_or_none_absent (s : list Z) :
  series_or_none s = None <-> Forall (fun x => x < 0) s.
Proof.
  unfold series_or_none. rewrite <- empty_energy_result_false.
  destruct (empty_energy_result s); split; congruence.
Qed.

Lemma series_or_none_kept (s : list Z) :
  Exists (fun x => 0 <= x) s -> series_or_none s = Some s.
Proof.
  intros H. unfold series_or_none.
  apply empty_energy_result_true in H. now rewrite H.
Qed.


Example sentinel_rule_keeps_minus_one :
  series_or_none [-1; 5] = Some [-1; 5] /\ series_or_none [-1; -1] = None.
Proof. split; reflexivity. Qed.

(** ** Slices and deltas *)

Section Slices.

Context {A : Type}.

Lemma list_pair_ind (P : list A -> Prop) :
  P [] -> (forall x, P [x]) -> (forall x y l, P l -> P (x :: y :: l)) ->
  forall l, P l.
Proof.
  intros H0 H1 H2 l.
  assert (H : P l /\ forall x, P (x :: l)).
  { induction l as [|y l [IHl IHxl]]; split; auto. }
  apply H.
Qed.

Lemma every_other_length (l : list A) :
  List.length (every_other l) = ((List.length l + 1) / 2)%nat.
Proof.
  induction l as [| x | x y l IH] using list_pair_ind; try reflexivity.
  cbn [every_other List.length]. rewrite IH.
  replace (S (S (List.length l)) + 1)%nat with ((List.length l + 1) + 1 * 2)%nat by lia.
  rewrite Nat.div_add by lia. lia.
Qed.

Lemma every_other_nth (d : A) (l : list A) :
  forall k, nth k (every_other l) d = nth (2 * k) l d.
Proof.
  induction l as [| x | x y l IH] using list_pair_ind; intros k.
  - destruct k; reflexivity.
  - destruct k as [|k]; [reflexivity|].
    cbn [every_other]. replace (2 * S k)%nat with (S (S (2 * k))) by lia.
    destruct k; reflexivity.
  - destruct k as [|k]; [reflexivity|].
    cbn [every_other]. replace (2 * S k)%nat with (S (S (2 * k))) by lia.
    cbn [nth]. apply IH.
Qed.

Lemma slice_even_length (l : list A) :
  List.length (slice_step2 0 l) = ((List.length l + 1) / 2)%nat.
Proof. apply every_other_length. Qed.

Lemma slice_even_nth (d : A) (l : list A) (k : nat) :
  nth k (slice_step2 0 l) d = nth (2 * k) l d.
Proof. apply every_other_nth. Qed.

Lemma slice_odd_length (l : list A) :
  List.length (slice_step2 1 l) = (List.length l / 2)%nat.
Proof.
  unfold slice_step2. destruct l as [|x l]; [reflexivity|].
  cbn [skipn List.length]. rewrite every_other_length.
  f_equal. lia.
Qed.

Lemma slice_odd_nth (d : A) (l : list A) (k : nat) :
  nth k (slice_step2 1 l) d = nth (2 * k + 1) l d.
Proof.
  unfold slice_step2. destruct l as [|x l]; cbn [skipn].
  - destruct k; reflexivity.
  - rewrite every_other_nth.
    replace (2 * k + 1)%nat with (S (2 * k)) by lia. reflexivity.
Qed.

End Slices.

Lemma snapshot_sub_elementwise (a b : list Z) :
  List.length a = List.length b ->
  exists delta,
    snapshot_sub a b = inr delta
    /\ List.length delta = List.length b
    /\ forall i, (i < List.length b)%nat -> nth i delta 0 = nth i a 0 - nth i b 0.
Proof.
  intros Hlen. unfold snapshot_sub.
  rewrite (proj2 (Nat.eqb_eq _ _) Hlen).
  eexists. split; [reflexivity|]. split.
  - rewrite length_map, length_combine. lia.
  - intros i Hi. set (f := fun p : Z * Z => fst p - snd p).
    rewrite (nth_indep _ 0 (f (0, 0)))
      by (rewrite length_map, length_combine; lia).
    rewrite map_nth, combine_nth by assumption. reflexivity.
Qed.

(** ** Ending a session *)

(** C4: on a session begun with snapshot [snap_begin] at time [ts_begin],
    [end] takes the elementwise delta of the new snapshot and the old one,
    takes its even-indexed elements as the package series and its odd-indexed
    elements as the DRAM series, and returns the elapsed time with, for each
    series on its own, an absent value when every element of the series is
    negative and the series itself when one of its elements is not. *)
Theorem Measurement_end_returns (V : Type) (E : Env V) (self : Measurement)
    (w : World) (snap_begin : list Z) (ts_begin : Z) :
  _energy_begin self = Some snap_begin ->
  _ts_begin self = Some ts_begin ->
  List.length (energy E (w_energy_reads w)) = List.length snap_begin ->
  exists delta pkg dram pkg_result dram_result,
    (List.length delta = List.length snap_begin
     /\ forall i, (i < List.length snap_begin)%nat ->
          nth i delta 0 = nth i (energy E (w_energy_reads w)) 0 - nth i snap_begin 0)
    /\ (List.length pkg = ((List.length delta + 1) / 2)%nat
        /\ forall k, nth k pkg 0 = nth (2 * k) delta 0)
    /\ (List.length dram = (List.length delta / 2)%nat
        /\ forall k, nth k dram 0 = nth (2 * k + 1) delta 0)
    /\ fst (Measurement_end V E self w)
       = inr (time_ns E (w_time_reads w) - ts_begin, pkg_result, dram_result)
    /\ (pkg_result = None <-> Forall (fun x => x < 0) pkg)
    /\ (Exists (fun x => 0 <= x) pkg -> pkg_result = Some pkg)
    /\ (dram_result = None <-> Forall (fun x => x < 0) dram)
    /\ (Exists (fun x => 0 <= x) dram -> dram_result = Some dram).
Proof.
  intros He Ht Hlen.
  destruct (snapshot_sub_elementwise _ _ Hlen) as [delta [Hsub [Hdl Hnth]]].
  exists delta, (slice_step2 0 delta), (slice_step2 1 delta),
    (series_or_none (slice_step2 0 delta)), (series_or_none (slice_step2 1 delta)).
  split; [split; assumption|].
  split; [split; [apply slice_even_length | intros k; apply slice_even_nth]|].
  split; [split; [apply slice_odd_length | intros k; apply slice_odd_nth]|].
  split.
  { unfold Measurement_end, bind, call_time_ns, call_energy. cbn.
    rewrite He. cbn. rewrite Hsub. cbn. rewrite Ht. reflexivity. }
  split; [apply series_or_none_absent|].
  split; [apply series_or_none_kept|].
  split; [apply series_or_none_absent | apply series_or_none_kept].
Qed.

Lemma Measurement_end_returns_witness :
  exists delta pkg dram pkg_result dram_result,
    (List.length delta = List.length snapshot0
     /\ forall i, (i < List.length snapshot0)%nat ->
          nth i delta 0
          = nth i (energy two_socket_env (w_energy_reads world1)) 0
            - nth i snapshot0 0)
    /\ (List.length pkg = ((List.length delta + 1) / 2)%nat
        /\ forall k, nth k pkg 0 = nth (2 * k) delta 0)
    /\ (List.length dram = (List.length delta / 2)%nat
        /\ forall k, nth k dram 0 = nth (2 * k + 1) delta 0)
    /\ fst (Measurement_end Z two_socket_env begun_session world1)
       = inr (time_ns two_socket_env (w_time_reads world1) - 1000,
              pkg_result, dram_result)
    /\ (pkg_result = None <-> Forall (fun x => x < 0) pkg)
    /\ (Exists (fun x => 0 <= x) pkg -> pkg_result = Some pkg)
    /\ (dram_result = None <-> Forall (fun x => x < 0) dram)
    /\ (Exists (fun x => 0 <= x) dram -> dram_result = Some dram).
Proof.
  apply (Measurement_end_returns Z two_socket_env begun_session world1
           snapshot0 1000); reflexivity.
Defined.

Example Measurement_end_two_sockets :
  fst (Measurement_end Z two_socket_env begun_session world1)
  = inr (500, Some [30; 1], None).
Proof. reflexivity. Qed.

(** ** Scaling a record *)

Lemma div_const_scaled (n : Z) (x : num) : scaled n x (div_const x (IZR n)).
Proof. destruct x; reflexivity. Qed.

Lemma map_div_const_scaled (n : Z) (s : option (list num)) :
  series_scaled n s (option_map (map (fun j => div_const j (IZR n))) s).
Proof.
  destruct s as [l|]; simpl; [|exact I].
  induction l as [|x l IH]; simpl; constructor.
  - apply div_const_scaled.
  - exact IH.
Qed.

(** C5: for a positive [n], [r / n] is a record whose duration and whose
    package and DRAM elements are those of [r] divided by [n], and whose
    label, timestamp and confidence fields are those of [r], undivided. *)
Theorem Result_truediv_scales (r : Result.t) (n : Z) :
  0 < n ->
  exists r',
    Result_truediv r n = inr r'
    /\ scaled n (Result.duration r) (Result.duration r')
    /\ series_scaled n (Result.pkg r) (Result.pkg r')
    /\ series_scaled n (Result.dram r) (Result.dram r')
    /\ Result.label r' = Result.label r
    /\ Result.timestamp r' = Result.timestamp r
    /\ Result.duration_conf r' = Result.duration_conf r
    /\ Result.pkg_conf r' = Result.pkg_conf r
    /\ Result.dram_conf r' = Result.dram_conf r.
Proof.
  intros Hn. unfold Result_truediv.
  destruct (Z.eqb_spec n 0) as [H0|_]; [lia|].
  eexists. split; [reflexivity|]. cbn.
  split; [apply div_const_scaled|].
  split; [apply map_div_const_scaled|].
  split; [apply map_div_const_scaled|].
  repeat split.
Qed.

Lemma Result_truediv_scales_witness :
  exists r',
    Result_truediv record_with_conf 3 = inr r'
    /\ scaled 3 (Result.duration record_with_conf) (Result.duration r')
    /\ series_scaled 3 (Result.pkg record_with_conf) (Result.pkg r')
    /\ series_scaled 3 (Result.dram record_with_conf) (Result.dram r')
    /\ Result.label r' = Result.label record_with_conf
    /\ Result.timestamp r' = Result.timestamp record_with_conf
    /\ Result.duration_conf r' = Result.duration_conf record_with_conf
    /\ Result.pkg_conf r' = Result.pkg_conf record_with_conf
    /\ Result.dram_conf r' = Result.dram_conf record_with_conf.
Proof.
  apply (Result_truediv_scales record_with_conf 3). lia.
Defined.

Example Result_truediv_example :
  Result_truediv record_with_conf 3
  = inr (Result.mk "f" (Float 0) (Float (6 / 3))
           (Some [Float (12 / 3); Float (3 / 3)]) (Some [Float (9 / 3)])
           (Some (Float 1)) (Some [Float 2; Float 4]) (Some [Float 8])).
Proof. reflexivity. Qed.

(** ** Unknown policies *)

(** C7: with a method that is neither ["global"] nor ["confidence"] the
    wrapper raises [ValueError] in the world it started in: the clock and the
    sensor have not been read, the measured function has not been called, and
    nothing has been handed to an output or printed. *)
Theorem unknown_method_raises (V : Type) (E : Env V) (name : string)
    (output : option Output) (number : Z) (method : string) (w : World) :
  method <> "global" ->
  method <> "confidence" ->
  wrapper_measure V E name output number method w
  = (inl (Raise ValueError "Unknown measurement method."), w).
Proof.
  intros Hg Hc. unfold wrapper_measure.
  apply String.eqb_neq in Hg. apply String.eqb_neq in Hc.
  rewrite Hg, Hc. reflexivity.
Qed.

Lemma unknown_method_raises_witness :
  wrapper_measure Z (steady_env true) "f" None 10 "bogus" world0
  = (inl (Raise ValueError "Unknown measurement method."), world0).
Proof.
  apply (unknown_method_raises Z (steady_env true) "f" None 10 "bogus" world0);
    discriminate.
Defined.

(** ** Access to the result of a session *)

Lemma create_result_sets_results (self self' : Measurement)
    (duration : num) (pkg dram : option (list num))
    (duration_conf : option num) (pkg_conf dram_conf : option (list num))
    (w w' : World) :
  Measurement_create_result self duration pkg dram duration_conf pkg_conf dram_conf w
  = (inr self', w') ->
  exists ts dc,
    _ts_begin self = Some ts /\ duration_conf = Some dc /\ w' = w
    /\ self' = set_results self
                 (Some (Result.mk (label self)
                          (div_const (Int ts) 1000000000)
                          (div_const duration 1e9)
                          pkg dram (Some (div_const dc 1000000000))
                          pkg_conf dram_conf)).
Proof.
  unfold Measurement_create_result, bind, getattr, lift, div_opt, ret, raise.
  destruct (_ts_begin self) as [ts|]; [|discriminate].
  destruct duration_conf as [dc|]; [|discriminate].
  intros H. inversion H; subst. exists ts, dc. repeat split.
Qed.

(** C8: the result of a freshly constructed session, and of one that has only
    been begun, cannot be read: the access raises [AttributeError] and returns
    no value; once [create_result] has returned, the access returns the record
    it stored. *)
Theorem result_access (V : Type) (E : Env V) (lbl : string) (output : option Output) :
  Measurement_result (Measurement_init V E lbl output)
  = inl (Raise AttributeError "'Measurement' object has no attribute '_results'")
  /\ (forall w,
        exists self' w',
          Measurement_begin V E (Measurement_init V E lbl output) w = (inr self', w')
          /\ Measurement_result self'
             = inl (Raise AttributeError
                      "'Measurement' object has no attribute '_results'"))
  /\ (forall self duration pkg dram duration_conf pkg_conf dram_conf w self' w',
        Measurement_create_result self duration pkg dram
          duration_conf pkg_conf dram_conf w = (inr self', w') ->
        exists r,
          _results self' = Some (Some r) /\ Measurement_result self' = inr r).
Proof.
  split; [reflexivity|]. split.
  - intros w. eexists. eexists. split; reflexivity.
  - intros self duration pkg dram dconf pconf drconf w self' w' H.
    apply create_result_sets_results in H.
    destruct H as [ts [dc [_ [_ [_ ->]]]]].
    eexists. split; reflexivity.
Qed.

Example result_after_create_result :
  exists self',
    Measurement_create_result begun_session (Float 5) (Some [Float 10]) None
      (Some (Float 0)) (Some [Float 0]) None world1 = (inr self', world1)
    /\ Measurement_result self'
       = inr (Result.mk "f" (Float (1000 / 1000000000)) (Float (5 / 1e9))
                (Some [Float 10]) None (Some (Float (0 / 1000000000)))
                (Some [Float 0]) None).
Proof. eexists. split; reflexivity. Qed.

(** ** The confidence policy needs both domains *)

Section ConfidenceLoop.

Variable V : Type.
Variable E : Env V.

(** One iteration never touches the output, and when it returns it has read
  the sensor twice and kept both series of that run's delta. *)
Lemma confidence_body_effect (number : Z) (i : nat) (st : loop_state V)
  (w w' : World) (r : exn + loop_state V) :
confidence_body V E number i st w = (r, w') ->
w_added w' = w_added w
/\ w_stdout w' = w_stdout w
/\ (forall st', r = inr st' ->
      w_energy_reads w' = (w_energy_reads w + 2)%nat
      /\ exists delta,
           snapshot_sub (energy E (S (w_energy_reads w))) (energy E (w_energy_reads w))
           = inr delta
           /\ both_present delta).
Proof.
destruct st as [[sensor df] v].
unfold confidence_body, Measurement_begin, Measurement_end, bind,
  call_energy, call_time_ns, call_func, getattr, lift, local, ret, raise.
cbn -[slice_step2].
destruct (func E (w_calls w)) as [e|val]; cbn -[slice_step2]; [failed_run|].
destruct (snapshot_sub _ _) as [e|delta] eqn:Hsub; cbn -[slice_step2]; [failed_run|].
destruct (series_or_none (slice_step2 0 delta)) as [p|] eqn:Hp;
  destruct (series_or_none (slice_step2 1 delta)) as [d|] eqn:Hd;
  destruct (i =? 0)%nat; cbn -[slice_step2]; try failed_run.
- destruct (iloc_set _ _ _); cbn; [failed_run|].
  intros H; inversion H; subst; cbn. repeat split; try lia.
  exists delta. unfold both_present. rewrite Hp, Hd. repeat split; discriminate.
- destruct df as [df|]; cbn; [|failed_run].
  destruct (iloc_set _ _ _); cbn; [failed_run|].
  intros H; inversion H; subst; cbn. repeat split; try lia.
  exists delta. unfold both_present. rewrite Hp, Hd. repeat split; discriminate.
Qed.

Lemma confidence_loop_effect (number : Z) (idx : list nat) :
forall (st : loop_state V) (w w' : World) (r : exn + loop_state V),
  for_each (confidence_body V E number) idx st w = (r, w') ->
  w_added w' = w_added w
  /\ w_stdout w' = w_stdout w
  /\ (forall st', r = inr st' ->
        w_energy_reads w' = (w_energy_reads w + 2 * List.length idx)%nat
        /\ forall j, (j < List.length idx)%nat ->
             exists delta,
               snapshot_sub (energy E (w_energy_reads w + 2 * j + 1))
                            (energy E (w_energy_reads w + 2 * j))
               = inr delta
               /\ both_present delta).
Proof.
induction idx as [|i idx IH]; intros st w w' r H.
- inversion H; subst. repeat split; cbn in *; intros; lia.
- cbn [for_each] in H. unfold bind in H.
  destruct (confidence_body V E number i st w) as [[e|st1] w1] eqn:Hbody.
  + inversion H; subst.
    apply confidence_body_effect in Hbody. destruct Hbody as [Ha [Hs _]].
    repeat split; try assumption; intros; discriminate.
  + apply confidence_body_effect in Hbody. destruct Hbody as [Ha [Hs Hok]].
    destruct (Hok st1 eq_refl) as [He [delta [Hsub Hpres]]].
    apply IH in H. destruct H as [Ha' [Hs' Hok']].
    split; [congruence|]. split; [congruence|].
    intros st' ->. destruct (Hok' st' eq_refl) as [He' Hall].
    split; [cbn [List.length]; lia|].
    intros [|j] Hj.
    * exists delta. split; [|assumption].
      replace (w_energy_reads w + 2 * 0 + 1)%nat with (S (w_energy_reads w)) by lia.
      replace (w_energy_reads w + 2 * 0)%nat with (w_energy_reads w) by lia.
      assumption.
    * cbn [List.length] in Hj.
      destruct (Hall j ltac:(lia)) as [d [Hd Hp]].
      exists d. split; [|assumption].
      replace (w_energy_reads w + 2 * S j + 1)%nat
        with (w_energy_reads w1 + 2 * j + 1)%nat by lia.
      replace (w_energy_reads w + 2 * S j)%nat
        with (w_energy_reads w1 + 2 * j)%nat by lia.
      assumption.
Qed.

(** C10: under the confidence policy, if in some run the package series or
  the DRAM series of the delta is all-negative, so that the sentinel rule
  makes it absent, the call raises and no record reaches an output: the
  policy only succeeds when both series are present in every run. *)
Theorem confidence_needs_both_domains (name : string) (output : option Output)
  (number : Z) (w : World) (i : nat) (delta : list Z) :
(i < Z.to_nat number)%nat ->
snapshot_sub (energy E (w_energy_reads w + 2 * i + 1))
             (energy E (w_energy_reads w + 2 * i)) = inr delta ->
Forall (fun x => x < 0) (slice_step2 0 delta)
\/ Forall (fun x => x < 0) (slice_step2 1 delta) ->
exists e w',
  wrapper_measure V E name output number "confidence" w = (inl e, w')
  /\ w_added w' = w_added w
  /\ w_stdout w' = w_stdout w.
Proof.
intros Hi Hsub Habsent.
unfold wrapper_measure. cbn [String.eqb Ascii.eqb Bool.eqb].
unfold bind at 1. unfold bind at 1.
unfold try_import_pandas, import_pandas.
destruct (pandas_installed E); cbn [ret raise is_import_error exn_class_of].
2:{ eexists. eexists. split; [reflexivity|]. split; reflexivity. }
unfold bind at 1.
destruct (for_each _ _ _ w) as [[e|st] w1] eqn:Hloop.
- apply confidence_loop_effect in Hloop. destruct Hloop as [Ha [Hs _]].
  eexists. eexists. split; [reflexivity|]. split; assumption.
- exfalso. apply confidence_loop_effect in Hloop. destruct Hloop as [_ [_ Hok]].
  destruct (Hok st eq_refl) as [_ Hall].
  unfold range in Hall. rewrite length_seq in Hall.
  destruct (Hall i Hi) as [d [Hd [Hp Hdr]]].
  rewrite Hsub in Hd. inversion Hd; subst d.
  destruct Habsent as [H|H]; apply series_or_none_absent in H; contradiction.
Qed.
End ConfidenceLoop.

Lemma confidence_needs_both_domains_witness :
  exists e w',
    wrapper_measure Z no_dram_env "f" None 3 "confidence" world0 = (inl e, w')
    /\ w_added w' = w_added world0
    /\ w_stdout w' = w_stdout world0.
Proof.
  apply (confidence_needs_both_domains Z no_dram_env "f" None 3 world0 1 [10; -1]).
  - cbn. lia.
  - reflexivity.
  - right. repeat constructor.
Defined.

Example confidence_without_dram :
  wrapper_measure Z no_dram_env "f" None 3 "confidence" world0
  = (inl (Raise TypeError "object of type 'NoneType' has no len()"),
     Build_World 2 2 1 [] []).
Proof. reflexivity. Qed.

(** ** Statistics of the confidence policy *)

Lemma sum_R_repeat (x : R) (n : nat) :
  sum_R (repeat x n) = (INR n * x)%R.
Proof.
  induction n as [|n IH].
  - simpl. ring.
  - cbn [repeat sum_R fold_right]. fold (sum_R (repeat x n)).
    rewrite IH, S_INR. ring.
Qed.

Lemma map_repeat {A B : Type} (f : A -> B) (a : A) (n : nat) :
  map f (repeat a n) = repeat (f a) n.
Proof. induction n as [|n IH]; simpl; congruence. Qed.

Lemma Series_mean_constant (c : Z) (n : nat) :
  (1 <= n)%nat -> Series_mean (repeat c n) = Float (IZR c).
Proof.
  intros Hn. destruct n as [|n]; [lia|].
  unfold Series_mean. cbn [repeat].
  change (c :: repeat c n) with (repeat c (S n)).
  rewrite map_repeat, sum_R_repeat, repeat_length.
  f_equal. field. apply not_0_INR. discriminate.
Qed.

Lemma Series_std_constant (c : Z) (n : nat) :
  (2 <= n)%nat -> Series_std (repeat c n) = Float 0.
Proof.
  intros Hn. unfold Series_std. rewrite repeat_length.
  destruct (Nat.leb_spec n 1) as [H|_]; [lia|].
  rewrite !map_repeat, !sum_R_repeat.
  assert (Hne : INR n <> 0%R) by (apply not_0_INR; lia).
  replace (INR n * IZR c / INR n)%R with (IZR c) by (field; assumption).
  f_equal.
  replace (INR n * ((IZR c - IZR c) * (IZR c - IZR c)) / (INR n - 1))%R with 0%R
    by (unfold Rdiv; ring).
  apply sqrt_0.
Qed.

Lemma conf_of_zero (denom : R) : conf_of (Float 0) denom = Float 0.
Proof. unfold conf_of. f_equal. unfold Rdiv. ring. Qed.

(** What [_compute_stats] returns in the place of the duration is the
    standard deviation of the [Duration] column (line 162). *)
Lemma compute_stats_duration_is_std (df : DataFrame) (s : stats) :
  _compute_stats df = inr s ->
  exists dur,
    DataFrame_getitem df "Duration" = inr dur
    /\ fst (fst (fst (fst (fst s)))) = Series_std dur.
Proof.
  unfold _compute_stats.
  destruct (count0 df); [discriminate|].
  destruct (DataFrame_getitem df "Duration") as [|dur]; [discriminate|].
  repeat match goal with
         | |- context [match ?x with inl _ => _ | inr _ => _ end] =>
             destruct x; [discriminate|]
         end.
  intros H. inversion H; subst. exists dur. split; reflexivity.
Qed.

Lemma decimal_inj (i j : nat) : decimal i = decimal j -> i = j.
Proof.
  unfold decimal. intros H.
  apply (f_equal NilEmpty.uint_of_string) in H.
  rewrite !NilEmpty.usu in H. injection H as H.
  now apply Unsigned.to_uint_inj.
Qed.

Lemma index_of_skip (name : string) (l1 l2 : list string) :
  (forall c, In c l1 -> String.eqb c name = false) ->
  index_of name (l1 ++ l2)
  = option_map (Nat.add (List.length l1)) (index_of name l2).
Proof.
  induction l1 as [|c l1 IH]; intros Hno; cbn [app index_of List.length].
  - destruct (index_of name l2); reflexivity.
  - rewrite (Hno c) by (now left). rewrite IH by (intros; apply Hno; now right).
    destruct (index_of name l2); reflexivity.
Qed.

Lemma index_of_names (g : nat -> string) (rest : list string) :
  (forall i j, g i = g j -> i = j) ->
  forall len a j, (j < len)%nat ->
    index_of (g (a + j)%nat) (map g (seq a len) ++ rest) = Some j.
Proof.
  intros Hinj. induction len as [|len IH]; intros a j Hj; [lia|].
  cbn [seq map app index_of].
  destruct j as [|j].
  - rewrite Nat.add_0_r, String.eqb_refl. reflexivity.
  - destruct (String.eqb_spec (g a) (g (a + S j)%nat)) as [Heq|_].
    + apply Hinj in Heq. lia.
    + replace (a + S j)%nat with (S a + j)%nat by lia.
      rewrite IH by lia. reflexivity.
Qed.

Lemma sample_columns_eq (k m : nat) :
  sample_columns k m
  = "Duration" :: map pkg_name (seq 0 k) ++ map dram_name (seq 0 m).
Proof. reflexivity. Qed.

Lemma pkg_name_inj (i j : nat) : pkg_name i = pkg_name j -> i = j.
Proof. unfold pkg_name. cbn. intros H. injection H as H. now apply decimal_inj. Qed.

Lemma dram_name_inj (i j : nat) : dram_name i = dram_name j -> i = j.
Proof. unfold dram_name. cbn. intros H. injection H as H. now apply decimal_inj. Qed.

Lemma index_of_pkg (k m j : nat) :
  (j < k)%nat -> index_of (pkg_name j) (sample_columns k m) = Some (S j).
Proof.
  intros Hj. rewrite sample_columns_eq. cbn [index_of].
  change (String.eqb "Duration" (pkg_name j)) with false. cbn match.
  rewrite (index_of_names pkg_name _ pkg_name_inj k 0 j Hj). reflexivity.
Qed.

Lemma index_of_dram (k m j : nat) :
  (j < m)%nat -> index_of (dram_name j) (sample_columns k m) = Some (S (k + j)).
Proof.
  intros Hj. rewrite sample_columns_eq. cbn [index_of].
  change (String.eqb "Duration" (dram_name j)) with false. cbn match.
  rewrite index_of_skip.
  - rewrite <- (app_nil_r (map dram_name (seq 0 m))).
    rewrite (index_of_names dram_name _ dram_name_inj m 0 j Hj).
    rewrite length_map, length_seq. reflexivity.
  - intros c Hin. apply in_map_iff in Hin. destruct Hin as [i [<- _]]. reflexivity.
Qed.

Lemma column_values_full (k m : nat) (samples : list sample) (j : nat) :
  Forall (fun s => (j < List.length (sample_row s))%nat) samples ->
  column_values (sample_table k m samples) j
  = map (fun s => nth j (sample_row s) 0) samples.
Proof.
  unfold column_values, sample_table. cbn [rows].
  induction 1 as [|s samples Hs _ IH]; [reflexivity|].
  cbn [map flat_map]. rewrite (nth_error_nth' _ 0 Hs), IH. reflexivity.
Qed.

Lemma duration_values (k m : nat) (samples : list sample) :
  column_values (sample_table k m samples) 0 = durations samples.
Proof.
  rewrite column_values_full.
  - apply map_ext. intros [[dur p] d]. reflexivity.
  - apply Forall_forall. intros [[dur p] d] _. cbn. lia.
Qed.

Lemma pkg_values (k m : nat) (samples : list sample) (j : nat) :
  Forall (well_shaped k m) samples -> (j < k)%nat ->
  DataFrame_getitem (sample_table k m samples) (pkg_name j)
  = inr (pkg_column samples j).
Proof.
  intros Hshape Hj. unfold DataFrame_getitem.
  cbn [columns sample_table]. rewrite index_of_pkg by assumption.
  rewrite column_values_full.
  - f_equal. apply map_ext_in. intros [[dur p] d] Hin.
    rewrite Forall_forall in Hshape. destruct (Hshape _ Hin) as [Hp _].
    cbn in *. apply app_nth1. lia.
  - eapply Forall_impl; [|exact Hshape].
    intros [[dur p] d] [Hp _]. cbn in *. rewrite length_app. lia.
Qed.

Lemma dram_values (k m : nat) (samples : list sample) (j : nat) :
  Forall (well_shaped k m) samples -> (j < m)%nat ->
  DataFrame_getitem (sample_table k m samples) (dram_name j)
  = inr (dram_column samples j).
Proof.
  intros Hshape Hj. unfold DataFrame_getitem.
  cbn [columns sample_table]. rewrite index_of_dram by assumption.
  rewrite column_values_full.
  - f_equal. apply map_ext_in. intros [[dur p] d] Hin.
    rewrite Forall_forall in Hshape. destruct (Hshape _ Hin) as [Hp _].
    cbn in *. rewrite app_nth2 by lia. f_equal. lia.
  - eapply Forall_impl; [|exact Hshape].
    intros [[dur p] d] [Hp Hd]. cbn in *. rewrite length_app. lia.
Qed.

Section Collect.

Variable df : DataFrame.
Variable f : list Z -> num.
Variable column_prefix : string.

Lemma collect_skip (l rest : list string) :
  (forall c, In c l -> prefix column_prefix c = false) ->
  collect_columns df f column_prefix (l ++ rest)
  = collect_columns df f column_prefix rest.
Proof.
  induction l as [|c l IH]; intros Hno; [reflexivity|].
  cbn [app collect_columns]. rewrite (Hno c) by (now left).
  cbn [negb]. apply IH. intros; apply Hno; now right.
Qed.

Lemma collect_take (g : nat -> string) (vals : nat -> list Z) (rest : list string) :
  forall len a,
    (forall j, (a <= j < a + len)%nat ->
       prefix column_prefix (g j) = true /\ DataFrame_getitem df (g j) = inr (vals j)) ->
    collect_columns df f column_prefix (map g (seq a len) ++ rest)
    = match collect_columns df f column_prefix rest with
      | inl e => inl e
      | inr res => inr (map (fun j => f (vals j)) (seq a len) ++ res)%list
      end.
Proof.
  induction len as [|len IH]; intros a Hcols.
  - cbn [seq map app]. destruct (collect_columns df f column_prefix rest); reflexivity.
  - cbn [seq map app collect_columns].
    destruct (Hcols a ltac:(lia)) as [Hp Hv]. rewrite Hp, Hv. cbn [negb].
    rewrite IH by (intros j Hj; apply Hcols; lia).
    destruct (collect_columns df f column_prefix rest); reflexivity.
Qed.

Lemma collect_none (l : list string) :
  (forall c, In c l -> prefix column_prefix c = false) ->
  collect_columns df f column_prefix l = inr [].
Proof.
  intros Hno. rewrite <- (app_nil_r l). rewrite collect_skip by assumption.
  reflexivity.
Qed.

Lemma collect_all (g : nat -> string) (vals : nat -> list Z) (len a : nat) :
  (forall j, (a <= j < a + len)%nat ->
     prefix column_prefix (g j) = true /\ DataFrame_getitem df (g j) = inr (vals j)) ->
  collect_columns df f column_prefix (map g (seq a len))
  = inr (map (fun j => f (vals j)) (seq a len)).
Proof.
  intros Hcols. rewrite <- (app_nil_r (map g (seq a len))).
  rewrite (collect_take g vals) by assumption.
  cbn [collect_columns]. rewrite app_nil_r. reflexivity.
Qed.

End Collect.

Lemma collect_pkg (k m : nat) (samples : list sample) (f : list Z -> num) :
  Forall (well_shaped k m) samples ->
  collect_columns (sample_table k m samples) f "Pkg" (sample_columns k m)
  = inr (map (fun j => f (pkg_column samples j)) (seq 0 k)).
Proof.
  intros Hshape. rewrite sample_columns_eq.
  change ("Duration" :: ?l) with (["Duration"] ++ l)%list.
  rewrite collect_skip by (intros c [<-|[]]; reflexivity).
  rewrite (collect_take _ _ _ pkg_name (pkg_column samples)).
  - rewrite collect_none; [rewrite app_nil_r; reflexivity|].
    intros c Hin. apply in_map_iff in Hin. destruct Hin as [i [<- _]]. reflexivity.
  - intros j Hj. split; [reflexivity|]. apply pkg_values; [assumption|lia].
Qed.

Lemma collect_dram (k m : nat) (samples : list sample) (f : list Z -> num) :
  Forall (well_shaped k m) samples ->
  collect_columns (sample_table k m samples) f "Dram" (sample_columns k m)
  = inr (map (fun j => f (dram_column samples j)) (seq 0 m)).
Proof.
  intros Hshape. rewrite sample_columns_eq.
  change ("Duration" :: ?l) with (["Duration"] ++ l)%list.
  rewrite collect_skip by (intros c [<-|[]]; reflexivity).
  rewrite collect_skip.
  - apply (collect_all _ _ _ dram_name (dram_column samples)).
    intros j Hj. split; [reflexivity|]. apply dram_values; [assumption|lia].
  - intros c Hin. apply in_map_iff in Hin. destruct Hin as [i [<- _]]. reflexivity.
Qed.

Lemma count0_sample_table (k m : nat) (samples : list sample) :
  count0 (sample_table k m samples) = inr (List.length samples).
Proof.
  unfold count0.
  change (columns (sample_table k m samples)) with (sample_columns k m).
  rewrite sample_columns_eq. rewrite duration_values.
  unfold durations. rewrite length_map. reflexivity.
Qed.

Lemma duration_column (k m : nat) (samples : list sample) :
  DataFrame_getitem (sample_table k m samples) "Duration" = inr (durations samples).
Proof.
  unfold DataFrame_getitem. rewrite <- (duration_values k m). reflexivity.
Qed.

(** The statistics of a sample table: per column the mean and 1.96 times the
    sample standard deviation over the square root of the number of runs,
    except for the first component, which is the standard deviation of the
    durations. *)
Lemma compute_stats_sample_table (k m : nat) (samples : list sample) :
  Forall (well_shaped k m) samples ->
  let n := List.length samples in
  _compute_stats (sample_table k m samples)
  = inr (Series_std (durations samples),
         map (fun j => Series_mean (pkg_column samples j)) (seq 0 k),
         map (fun j => Series_mean (dram_column samples j)) (seq 0 m),
         conf_of (Series_std (durations samples)) (sqrt (INR n)),
         map (fun j => conf_of (Series_std (pkg_column samples j)) (sqrt (INR n)))
           (seq 0 k),
         map (fun j => conf_of (Series_std (dram_column samples j)) (sqrt (INR n)))
           (seq 0 m)).
Proof.
  intros Hshape n. unfold _compute_stats.
  rewrite count0_sample_table, duration_column.
  change (columns (sample_table k m samples)) with (sample_columns k m).
  rewrite !collect_pkg, !collect_dram by assumption.
  reflexivity.
Qed.

Lemma map_nth_seq {A B : Type} (g : A -> B) (d : A) (l : list A) :
  map (fun j => g (nth j l d)) (seq 0 (List.length l)) = map g l.
Proof.
  induction l as [|x l IH]; [reflexivity|].
  cbn [List.length seq map nth]. f_equal.
  rewrite <- seq_shift, map_map. exact IH.
Qed.

Lemma constant_columns (dur : Z) (p d : list Z) (n : nat) :
  durations (repeat (dur, p, d) n) = repeat dur n
  /\ (forall j, pkg_column (repeat (dur, p, d) n) j = repeat (nth j p 0) n)
  /\ (forall j, dram_column (repeat (dur, p, d) n) j = repeat (nth j d 0) n).
Proof.
  unfold durations, pkg_column, dram_column.
  repeat split; intros; rewrite map_repeat; reflexivity.
Qed.

(** On a constant sample of at least two runs every confidence half-width is
    0 and the package and DRAM means are the constant readings; the first
    component, which becomes the duration, is 0 as well, whatever the
    constant duration. *)
Lemma compute_stats_constant_sample (dur : Z) (p d : list Z) (n : nat) :
  (2 <= n)%nat ->
  _compute_stats (sample_table (List.length p) (List.length d) (repeat (dur, p, d) n))
  = inr (Float 0,
         map (fun x => Float (IZR x)) p,
         map (fun x => Float (IZR x)) d,
         Float 0,
         map (fun _ => Float 0) p,
         map (fun _ => Float 0) d).
Proof.
  intros Hn.
  rewrite compute_stats_sample_table
    by (apply Forall_forall; intros s Hs; apply repeat_spec in Hs; subst s;
        split; reflexivity).
  cbv zeta. rewrite repeat_length.
  destruct (constant_columns dur p d n) as [-> [Hp Hd]].
  rewrite Series_std_constant, conf_of_zero by assumption.
  repeat f_equal.
  - rewrite <- (map_nth_seq (fun x => Float (IZR x)) 0 p).
    apply map_ext. intros j. rewrite Hp. apply Series_mean_constant. lia.
  - rewrite <- (map_nth_seq (fun x => Float (IZR x)) 0 d).
    apply map_ext. intros j. rewrite Hd. apply Series_mean_constant. lia.
  - rewrite <- (map_nth_seq (fun _ => Float 0) 0 p).
    apply map_ext. intros j. rewrite Hp, Series_std_constant by assumption.
    apply conf_of_zero.
  - rewrite <- (map_nth_seq (fun _ => Float 0) 0 d).
    apply map_ext. intros j. rewrite Hd, Series_std_constant by assumption.
    apply conf_of_zero.
Qed.

Example steady_table :
  fst (for_each (confidence_body Z (steady_env true) 3) (range 3)
         (Measurement_init Z (steady_env true) "f" None, None, None) world0)
  = inr (set_begin (Measurement_init Z (steady_env true) "f" None) [20; 8] 10,
         Some (sample_table 1 1 (repeat (5, [10], [4]) 3)), Some 2).
Proof. reflexivity. Qed.

Lemma set_nth_middle {A : Type} (a x : A) (l1 l2 : list A) :
  set_nth (List.length l1) a (l1 ++ x :: l2)%list = (l1 ++ a :: l2)%list.
Proof.
  induction l1 as [|y l1 IH]; [reflexivity|].
  cbn [List.length app set_nth]. now rewrite IH.
Qed.

Lemma map_const_seq {A : Type} (x : A) (a n : nat) :
  map (fun _ => x) (seq a n) = repeat x n.
Proof.
  revert a. induction n as [|n IH]; intros a; [reflexivity|].
  cbn [seq map repeat]. now rewrite IH.
Qed.

Lemma sample_columns_length (k m : nat) :
  List.length (sample_columns k m) = S (k + m).
Proof.
  unfold sample_columns. cbn [app List.length].
  rewrite length_app, !length_map, !length_seq. reflexivity.
Qed.

Section ConfidenceRuns.

Variable V : Type.
Variable E : Env V.
Variable w : World.
Variables k m : nat.
Variable number : Z.
Variable smp : nat -> sample.
Variable val : nat -> V.

Variable n : nat.
Hypothesis number_n : Z.to_nat number = n.

(** Every one of the [n] runs goes through, with series of the same widths. *)
Hypothesis runs_ok :
  forall i, (i < n)%nat -> run_yields V E w i (val i) (smp i) /\ well_shaped k m (smp i).

Lemma partial_table_step (i : nat) :
  (i < n)%nat ->
  iloc_set (partial_table k m n smp i) i (sample_row (smp i))
  = inr (partial_table k m n smp (S i)).
Proof.
  intros Hi. unfold iloc_set, partial_table. cbn [rows columns].
  rewrite length_app, length_map, length_seq, repeat_length.
  destruct (Nat.leb_spec (i + (n - i)) i) as [H|_]; [lia|].
  destruct (runs_ok i Hi) as [_ [Hp Hd]].
  destruct (smp i) as [[dur p] d] eqn:Hs. cbn in Hp, Hd.
  cbn [sample_row List.length]. rewrite length_app, sample_columns_length, Hp, Hd.
  rewrite Nat.eqb_refl. f_equal. f_equal.
  replace (n - i)%nat with (S (n - S i)) by lia. cbn [repeat].
  replace i with (List.length (map (fun i0 => Some (sample_row (smp i0))) (seq 0 i))) at 1
    by (rewrite length_map, length_seq; reflexivity).
  rewrite set_nth_middle, seq_S, map_app. cbn [map Nat.add].
  rewrite Hs, <- app_assoc. reflexivity.
Qed.

Lemma confidence_body_ok (i : nat) (sensor : Measurement)
    (df : option DataFrame) (v : option V) :
  (i < n)%nat ->
  (i <> 0%nat -> df = Some (partial_table k m n smp i)) ->
  confidence_body V E number i (sensor, df, v) (world_after w i)
  = (inr (set_begin sensor (energy E (w_energy_reads w + 2 * i))
            (time_ns E (w_time_reads w + 2 * i)),
          Some (partial_table k m n smp (S i)), Some (val i)),
     world_after w (S i)).
Proof.
  intros Hi Hdf.
  destruct (runs_ok i Hi) as [[Hf [Hdur [delta [Hsub [Hp Hd]]]]] [Hk Hm]].
  unfold confidence_body, Measurement_begin, Measurement_end, bind,
    call_energy, call_time_ns, call_func, getattr, lift, local, ret, raise.
  cbn -[slice_step2 Nat.mul sample_columns].
  rewrite Hf. cbn -[slice_step2 Nat.mul sample_columns].
  replace (S (w_energy_reads w + 2 * i)) with (w_energy_reads w + 2 * i + 1)%nat by lia.
  rewrite Hsub. cbn -[slice_step2 Nat.mul sample_columns].
  rewrite Hp, Hd.
  replace (S (w_time_reads w + 2 * i)) with (w_time_reads w + 2 * i + 1)%nat by lia.
  rewrite <- Hdur.
  assert (Hrow : (fst (fst (smp i)) :: snd (fst (smp i)) ++ snd (smp i))%list
                 = sample_row (smp i)) by (destruct (smp i) as [[? ?] ?]; reflexivity).
  assert (Hw : Build_World (S (w_time_reads w + 2 * i + 1)) (S (w_energy_reads w + 2 * i + 1))
                 (S (w_calls w + i)) (w_added w) (w_stdout w) = world_after w (S i)).
  { unfold world_after. f_equal; lia. }
  destruct i as [|i].
  - cbn -[slice_step2 Nat.mul sample_columns]. rewrite Hrow.
    unfold well_shaped in Hk, Hm. rewrite Hk, Hm.
    unfold DataFrame_new, range. rewrite number_n, map_const_seq.
    assert (Hnew : {| columns := sample_columns k m; rows := repeat None n |}
                   = partial_table k m n smp 0).
    { unfold partial_table. cbn [seq map app]. rewrite Nat.sub_0_r. reflexivity. }
    rewrite Hnew, (partial_table_step 0 Hi), Hw. reflexivity.
  - cbn -[slice_step2 Nat.mul sample_columns]. rewrite Hrow.
    rewrite (Hdf ltac:(discriminate)).
    rewrite (partial_table_step (S i) Hi), Hw. reflexivity.
Qed.

Lemma world_after_0 : world_after w 0 = w.
Proof. unfold world_after. destruct w; cbn. f_equal; lia. Qed.

Lemma confidence_loop_ok (len : nat) :
  forall (a : nat) (sensor : Measurement) (df : option DataFrame) (v : option V),
    (0 < len)%nat ->
    (a + len = n)%nat ->
    (a <> 0%nat -> df = Some (partial_table k m n smp a)) ->
    exists sensor',
      for_each (confidence_body V E number) (seq a len) (sensor, df, v) (world_after w a)
      = (inr (sensor', Some (partial_table k m n smp n), Some (val (n - 1))),
         world_after w n)
      /\ label sensor' = label sensor
      /\ _output sensor' = _output sensor
      /\ _ts_begin sensor' = Some (time_ns E (w_time_reads w + 2 * (n - 1))).
Proof.
  induction len as [|len IH]; intros a sensor df v Hlen Ha Hdf; [lia|].
  cbn [seq for_each]. unfold bind at 1.
  rewrite (confidence_body_ok a sensor df v) by (assumption || lia).
  destruct len as [|len].
  - cbn [seq for_each ret]. replace n with (S a) by lia.
    replace (S a - 1)%nat with a by lia.
    eexists. split; [reflexivity|]. repeat split.
  - destruct (IH (S a) (set_begin sensor (energy E (w_energy_reads w + 2 * a))
                            (time_ns E (w_time_reads w + 2 * a)))
                (Some (partial_table k m n smp (S a))) (Some (val a)))
      as [sensor' [Hrun [Hl [Ho Ht]]]]; [lia | lia | reflexivity |].
    exists sensor'. split; [exact Hrun|]. repeat split; assumption.
Qed.

Lemma partial_table_full :
  partial_table k m n smp n = sample_table k m (map smp (seq 0 n)).
Proof.
  unfold partial_table, sample_table.
  rewrite Nat.sub_diag, map_map. cbn [repeat]. rewrite app_nil_r. reflexivity.
Qed.

Lemma samples_well_shaped : Forall (well_shaped k m) (map smp (seq 0 n)).
Proof.
  apply Forall_forall. intros s Hin. apply in_map_iff in Hin.
  destruct Hin as [i [<- Hi]]. apply in_seq in Hi. apply runs_ok. lia.
Qed.

(** The confidence policy from end to end, with the default print output:
    when every run goes through, one record is handed to the output and
    printed.  Its package and DRAM fields are the column means and its
    confidence fields are 1.96 times the sample standard deviation of the
    column over the square root of the number of runs; its duration is the
    standard deviation of the durations, converted to seconds. *)
Lemma confidence_policy_record (name : string) :
  pandas_installed E = true ->
  (0 < n)%nat ->
  let samples := map smp (seq 0 n) in
  let denom := sqrt (INR n) in
  let r :=
    Result.mk name
      (div_const (Int (time_ns E (w_time_reads w + 2 * (n - 1)))) 1000000000)
      (div_const (Series_std (durations samples)) 1e9)
      (Some (map (fun j => Series_mean (pkg_column samples j)) (seq 0 k)))
      (Some (map (fun j => Series_mean (dram_column samples j)) (seq 0 m)))
      (Some (div_const (conf_of (Series_std (durations samples)) denom) 1000000000))
      (Some (map (fun j => conf_of (Series_std (pkg_column samples j)) denom) (seq 0 k)))
      (Some (map (fun j => conf_of (Series_std (dram_column samples j)) denom) (seq 0 m)))
  in
  exists text,
    _format_output (formatting E) false (Some r) = inr text
    /\ wrapper_measure V E name None number "confidence" w
       = (inr (val (n - 1)),
          Build_World (w_time_reads w + 2 * n) (w_energy_reads w + 2 * n)
            (w_calls w + n) (w_added w ++ [Some r]) (w_stdout w ++ [text])).
Proof.
  intros Hpandas Hn samples denom r.
  destruct (_format_output (formatting E) false (Some r)) as [e|text] eqn:Hfmt;
    [discriminate Hfmt|].
  exists text. split; [reflexivity|].
  unfold wrapper_measure. cbn [String.eqb Ascii.eqb Bool.eqb].
  unfold bind at 1. unfold bind at 1.
  unfold try_import_pandas, import_pandas. rewrite Hpandas. cbn [ret].
  unfold bind at 1.
  destruct (confidence_loop_ok n 0 (Measurement_init V E name None) None None)
    as [sensor' [Hrun [Hl [Ho Ht]]]]; [assumption | reflexivity | congruence |].
  rewrite world_after_0 in Hrun. unfold range. rewrite number_n, Hrun.
  unfold bind at 1, local at 1, ret at 1.
  rewrite partial_table_full.
  unfold bind at 1, lift at 1.
  rewrite (compute_stats_sample_table k m _ samples_well_shaped).
  cbv zeta. rewrite length_map, length_seq. unfold ret at 1.
  unfold bind at 1, Measurement_create_result.
  unfold bind at 1, getattr at 1. rewrite Ht. unfold ret at 1.
  unfold bind at 1, lift at 1, div_opt, ret at 1 2 3.
  unfold Measurement_export, bind at 1.
  unfold bind at 1, getattr. cbn [_results set_results ret _output].
  rewrite Ho, Hl. cbn [Measurement_init _output label].
  unfold call_add, PrintOutput. cbn [add].
  unfold PrintOutput_add, bind, lift.
  fold samples. fold denom. fold r. rewrite Hfmt.
  reflexivity.
Qed.

End ConfidenceRuns.

(** C1, on the code, for a constant sample: when each of at least two runs
    lasts [dur] and yields the package series [p] and the DRAM series [d],
    the record handed to the output carries [p] and [d] as means and 0 in
    every confidence field, but its duration is the standard deviation of the
    durations, 0, and not their mean, unless [dur] is 0 itself. *)
Theorem confidence_duration_is_std (V : Type) (E : Env V) (w : World)
    (name : string) (number : Z) (val : nat -> V) (dur : Z) (p d : list Z) :
  pandas_installed E = true ->
  (2 <= Z.to_nat number)%nat ->
  (forall i, (i < Z.to_nat number)%nat -> run_yields V E w i (val i) (dur, p, d)) ->
  exists v w' r,
    wrapper_measure V E name None number "confidence" w = (inr v, w')
    /\ w_added w' = (w_added w ++ [Some r])%list
    /\ Result.duration r = Float 0
    /\ (dur <> 0 -> Result.duration r <> div_const (Series_mean (repeat dur (Z.to_nat number))) 1e9)
    /\ Result.pkg r = Some (map (fun x => Float (IZR x)) p)
    /\ Result.dram r = Some (map (fun x => Float (IZR x)) d)
    /\ Result.duration_conf r = Some (Float 0)
    /\ Result.pkg_conf r = Some (map (fun _ => Float 0) p)
    /\ Result.dram_conf r = Some (map (fun _ => Float 0) d).
Proof.
  intros Hpandas Hn Hruns.
  set (n := Z.to_nat number) in *.
  destruct (confidence_policy_record V E w (List.length p) (List.length d) number
              (fun _ => (dur, p, d)) val n eq_refl) with (name := name)
    as [text [_ Hrun]]; [ | assumption | lia | ].
  { intros i Hi. split; [apply Hruns; assumption | split; reflexivity]. }
  rewrite map_const_seq in Hrun. unfold sample in Hrun.
  destruct (constant_columns dur p d n) as [Hdur [Hp Hd]].
  rewrite Hdur in Hrun.
  rewrite Series_std_constant, conf_of_zero in Hrun by assumption.
  eexists. eexists. eexists. split; [exact Hrun|].
  split; [reflexivity|].
  cbn [Result.duration Result.pkg Result.dram
       Result.duration_conf Result.pkg_conf Result.dram_conf div_const].
  split; [f_equal; lra|].
  split.
  { intros Hne. rewrite Series_mean_constant by lia. cbn [div_const].
    intros H. injection H as H.
    assert (IZR dur = 0%R) by lra. apply eq_IZR_R0 in H0. contradiction. }
  split.
  { f_equal. rewrite <- (map_nth_seq (fun x => Float (IZR x)) 0 p).
    apply map_ext. intros j. rewrite Hp. apply Series_mean_constant. lia. }
  split.
  { f_equal. rewrite <- (map_nth_seq (fun x => Float (IZR x)) 0 d).
    apply map_ext. intros j. rewrite Hd. apply Series_mean_constant. lia. }
  split; [do 2 f_equal; lra|].
  split.
  { f_equal. rewrite <- (map_nth_seq (fun _ => Float 0) 0 p).
    apply map_ext. intros j. rewrite Hp, Series_std_constant by assumption.
    apply conf_of_zero. }
  { f_equal. rewrite <- (map_nth_seq (fun _ => Float 0) 0 d).
    apply map_ext. intros j. rewrite Hd, Series_std_constant by assumption.
    apply conf_of_zero. }
Qed.

Lemma confidence_duration_is_std_witness :
  exists v w' r,
    wrapper_measure Z (steady_env true) "f" None 3 "confidence" world0 = (inr v, w')
    /\ w_added w' = (w_added world0 ++ [Some r])%list
    /\ Result.duration r = Float 0
    /\ (5 <> 0 -> Result.duration r <> div_const (Series_mean (repeat 5 (Z.to_nat 3))) 1e9)
    /\ Result.pkg r = Some (map (fun x => Float (IZR x)) [10])
    /\ Result.dram r = Some (map (fun x => Float (IZR x)) [4])
    /\ Result.duration_conf r = Some (Float 0)
    /\ Result.pkg_conf r = Some (map (fun _ => Float 0) [10])
    /\ Result.dram_conf r = Some (map (fun _ => Float 0) [4]).
Proof.
  apply (confidence_duration_is_std Z (steady_env true) world0 "f" 3
           (fun i => Z.of_nat i) 5 [10] [4]).
  - reflexivity.
  - cbn. lia.
  - intros i Hi.
    assert (Hcases : i = 0%nat \/ i = 1%nat \/ i = 2%nat) by (cbn in Hi; lia).
    destruct Hcases as [-> | [-> | ->]];
      (split; [reflexivity | split; [reflexivity | exists [10; 4]; repeat split]]).
Defined.

(** Three runs of 5 ns each, with package delta 10 and DRAM delta 4 in every
    run, evaluated: the duration field is 0, not 5 ns. *)
Example confidence_on_steady_sample :
  exists r out,
    wrapper_measure Z (steady_env true) "f" None 3 "confidence" world0
    = (inr 2, Build_World 6 6 3 [Some r] [out])
    /\ Result.duration r = Float 0
    /\ Result.duration r <> Float (5 / 1e9)
    /\ Result.pkg r = Some [Float 10]
    /\ Result.dram r = Some [Float 4]
    /\ Result.duration_conf r = Some (Float 0)
    /\ Result.pkg_conf r = Some [Float 0]
    /\ Result.dram_conf r = Some [Float 0].
Proof.
  lazy -[Series_std Series_mean conf_of div_const sqrt INR IZR
         Rdiv Rmult Rplus Rminus Rinv].
  eexists; eexists; split; [reflexivity|].
  cbn [Result.duration Result.pkg Result.dram
       Result.duration_conf Result.pkg_conf Result.dram_conf].
  change [5; 5; 5] with (repeat 5 3).
  change [10; 10; 10] with (repeat 10 3).
  change [4; 4; 4] with (repeat 4 3).
  rewrite !Series_std_constant, !Series_mean_constant by lia.
  rewrite !conf_of_zero. cbn [div_const].
  repeat split; try reflexivity.
  - f_equal. lra.
  - intros H. injection H as H. lra.
  - do 2 f_equal. lra.
Qed.

(** ** The global policy *)

Section GlobalPolicy.

Variable V : Type.
Variable E : Env V.

Lemma global_loop_keeps_log (idx : list nat) :
  forall (val : option V) (w w' : World) (r : exn + option V),
    for_each (global_body V E) idx val w = (r, w') -> same_log w w'.
Proof.
  induction idx as [|i idx IH]; intros val w w' r H.
  - inversion H; subst. split; reflexivity.
  - cbn [for_each] in H. unfold bind, global_body, call_func, ret in H.
    cbn in H. destruct (func E (w_calls w)) as [e|v].
    + inversion H; subst. split; reflexivity.
    + apply IH in H. exact H.
Qed.

Lemma create_result_needs_duration_conf (self : Measurement) (duration : num)
    (pkg dram pkg_conf dram_conf : option (list num)) (w : World) :
  exists e,
    Measurement_create_result self duration pkg dram None pkg_conf dram_conf w
    = (inl e, w).
Proof.
  unfold Measurement_create_result, bind, getattr, lift, div_opt, raise, ret.
  destruct (_ts_begin self); eexists; reflexivity.
Qed.

Lemma Measurement_end_keeps_log (self : Measurement) (w w' : World)
    (r : exn + Z * option (list Z) * option (list Z)) :
  Measurement_end V E self w = (r, w') -> same_log w w'.
Proof.
  unfold Measurement_end, bind, call_time_ns, call_energy, getattr, lift, raise, ret.
  cbn -[slice_step2].
  destruct (_energy_begin self); cbn -[slice_step2];
    [|intros H; inversion H; split; reflexivity].
  destruct (snapshot_sub _ _); cbn -[slice_step2];
    [intros H; inversion H; split; reflexivity|].
  destruct (_ts_begin self); cbn -[slice_step2];
    intros H; inversion H; split; reflexivity.
Qed.

(** X21: whatever the environment, the global policy raises before anything
    is handed to an output. *)
Lemma global_policy_never_exports (name : string) (output : option Output)
    (number : Z) (w : World) :
  exists e w',
    wrapper_measure V E name output number "global" w = (inl e, w')
    /\ same_log w w'.
Proof.
  unfold wrapper_measure. cbn [String.eqb Ascii.eqb Bool.eqb].
  unfold bind at 1. unfold bind at 1.
  unfold Measurement_begin at 1, bind at 1, call_energy at 1. 
  unfold bind at 1, call_time_ns at 1, ret at 1.
  cbn [fst snd].
  unfold bind at 1.
  match goal with |- context [for_each _ _ _ ?w0] =>
    destruct (for_each (global_body V E) (range number) None w0) as [[e|val] w1] eqn:Hloop
  end.
  - apply global_loop_keeps_log in Hloop.
    eexists. eexists. split; [reflexivity|]. exact Hloop.
  - apply global_loop_keeps_log in Hloop.
    unfold bind at 1.
    match goal with |- context [Measurement_end V E ?s w1] =>
      destruct (Measurement_end V E s w1) as [[e|[[dur pkg] dram]] w2] eqn:Hend
    end.
    + apply Measurement_end_keeps_log in Hend.
      eexists. eexists. split; [reflexivity|].
      destruct Hloop, Hend. split; cbn in *; congruence.
    + apply Measurement_end_keeps_log in Hend.
      unfold bind at 1.
      match goal with |- context [Measurement_create_result ?s ?d ?p ?q None None None w2] =>
        destruct (create_result_needs_duration_conf s d p q None None w2) as [e He];
        rewrite He
      end.
      eexists. eexists. split; [reflexivity|].
      destruct Hloop, Hend. split; cbn in *; congruence.
Qed.

End GlobalPolicy.

Section GlobalRuns.

Variable V : Type.
Variable E : Env V.

(** When every call returns, the loop of the global policy only counts calls. *)
Lemma global_loop_ok (idx : list nat) :
  forall (val : option V) (w : World),
    (forall i, (i < List.length idx)%nat -> exists v, func E (w_calls w + i) = inr v) ->
    exists val',
      for_each (global_body V E) idx val w
      = (inr val',
         Build_World (w_time_reads w) (w_energy_reads w)
           (w_calls w + List.length idx) (w_added w) (w_stdout w)).
Proof.
  induction idx as [|i idx IH]; intros val w Hf.
  - exists val. destruct w; cbn. rewrite Nat.add_0_r. reflexivity.
  - cbn [for_each]. unfold bind at 1, global_body at 1, bind at 1, call_func, ret at 1.
    cbn -[for_each].
    destruct (Hf 0%nat ltac:(cbn; lia)) as [v Hv].
    rewrite Nat.add_0_r in Hv. rewrite Hv. cbn -[for_each].
    destruct (IH (Some v)
                (Build_World (w_time_reads w) (w_energy_reads w) (S (w_calls w))
                   (w_added w) (w_stdout w))) as [val' Hrun].
    + intros j Hj. cbn. destruct (Hf (S j) ltac:(cbn; lia)) as [x Hx].
      exists x. rewrite <- Hx. f_equal. lia.
    + exists val'. rewrite Hrun. cbn [w_time_reads w_energy_reads w_calls w_added w_stdout List.length].
      rewrite Nat.add_succ_r. reflexivity.
Qed.

(** C2, on the code: the global policy brackets its [number] calls in one
    [begin]/[end] pair (two readings of the clock and of the sensor), then
    [create_result], called without confidence values, raises while dividing
    the absent [duration_conf]: no record is built, divided by [number] or
    handed to the output. *)
Theorem global_policy_raises (name : string) (output : option Output)
    (number : Z) (w : World) :
  (forall i, (i < Z.to_nat number)%nat -> exists v, func E (w_calls w + i) = inr v) ->
  List.length (energy E (S (w_energy_reads w)))
  = List.length (energy E (w_energy_reads w)) ->
  wrapper_measure V E name output number "global" w
  = (inl (Raise TypeError "unsupported operand type(s) for /: 'NoneType' and 'int'"),
     Build_World (w_time_reads w + 2) (w_energy_reads w + 2)
       (w_calls w + Z.to_nat number) (w_added w) (w_stdout w)).
Proof.
  intros Hf Hlen.
  destruct (snapshot_sub_elementwise _ _ Hlen) as [delta [Hsub _]].
  unfold wrapper_measure. cbn [String.eqb Ascii.eqb Bool.eqb].
  unfold bind at 1. unfold bind at 1.
  unfold Measurement_begin at 1, bind at 1, call_energy at 1.
  unfold bind at 1, call_time_ns at 1, ret at 1.
  unfold bind at 1.
  match goal with |- context [for_each _ _ _ ?w0] =>
    destruct (global_loop_ok (range number) None w0) as [val Hloop];
    [unfold range; rewrite length_seq; exact Hf|]
  end.
  rewrite Hloop. unfold range. rewrite length_seq.
  cbn [w_time_reads w_energy_reads w_calls w_added w_stdout].
  unfold bind at 1.
  unfold Measurement_end, bind, call_time_ns, call_energy, getattr, lift, ret, raise.
  cbn -[slice_step2 Nat.add Z.to_nat]. rewrite Hsub.
  cbn -[slice_step2 Nat.add Z.to_nat].
  do 2 f_equal; lia.
Qed.

End GlobalRuns.

Lemma global_policy_raises_witness :
  wrapper_measure Z (steady_env true) "f" None 3 "global" world0
  = (inl (Raise TypeError "unsupported operand type(s) for /: 'NoneType' and 'int'"),
     Build_World (0 + 2) (0 + 2) (0 + Z.to_nat 3) [] []).
Proof.
  apply (global_policy_raises Z (steady_env true) "f" None 3 world0).
  - intros i _. eexists. reflexivity.
  - reflexivity.
Defined.

(** ** The print output *)

Section PrintOutputFacts.

Variable F : Formatting.

(** The raw rendering never raises. *)
Lemma format_output_raw (result : option Result.t) :
  _format_output F true result = inr (str_result F result).
Proof. reflexivity. Qed.

(** A record without [duration_conf] cannot be rendered. *)
Lemma format_output_needs_duration_conf (r : Result.t) :
  Result.duration_conf r = None ->
  _format_output F false (Some r)
  = inl (Raise TypeError "unsupported format string passed to NoneType.__format__").
Proof.
  intros H. unfold _format_output, format_opt. rewrite H. reflexivity.
Qed.

(** Nor can one whose package series is present and has no confidence series. *)
Lemma format_output_needs_pkg_conf (r : Result.t) (dc : num) (p : list num) :
  Result.duration_conf r = Some dc ->
  Result.pkg r = Some p ->
  Result.pkg_conf r = None ->
  _format_output F false (Some r)
  = inl (Raise TypeError "'NoneType' object is not iterable").
Proof.
  intros Hd Hp Hc. unfold _format_output, format_opt, zip_conf.
  rewrite Hd, Hp, Hc. reflexivity.
Qed.

(** With [duration_conf] present, an absent domain has no section: without
    package and DRAM series only the three header lines are rendered. *)
Lemma format_output_omits_absent_domains (r : Result.t) (dc : num) :
  Result.duration_conf r = Some dc ->
  Result.pkg r = None ->
  Result.dram r = None ->
  _format_output F false (Some r)
  = inr ("Label : " ++ Result.label r ++ nl
         ++ "Begin : " ++ ctime F (Result.timestamp r) ++ nl
         ++ "Duration : " ++ format F (Result.duration r) ".4e"
         ++ " s (±" ++ format F dc " .4e" ++ ")").
Proof.
  intros Hd Hp Hr. unfold _format_output, format_opt.
  rewrite Hd, Hp, Hr. reflexivity.
Qed.

End PrintOutputFacts.

(** C6, on the code: handed a record whose [duration_conf] is absent, [add]
    of the print output raises while formatting it and prints nothing. *)
Theorem print_output_rejects_absent_confidence (F : Formatting) (r : Result.t)
    (w : World) :
  Result.duration_conf r = None ->
  PrintOutput_add F false (Some r) w
  = (inl (Raise TypeError "unsupported format string passed to NoneType.__format__"),
     w).
Proof.
  intros H. unfold PrintOutput_add, bind, lift.
  rewrite (format_output_needs_duration_conf F r H). reflexivity.
Qed.

Lemma print_output_rejects_absent_confidence_witness :
  PrintOutput_add plain_formatting false (Some record_without_conf) world0
  = (inl (Raise TypeError "unsupported format string passed to NoneType.__format__"),
     world0).
Proof.
  apply (print_output_rejects_absent_confidence plain_formatting
           record_without_conf world0).
  reflexivity.
Defined.

(** With every confidence field present the same output prints the record. *)
Example print_output_with_confidence :
  exists text,
    PrintOutput_add plain_formatting false (Some record_with_conf) world0
    = (inr tt, Build_World 0 0 0 [] [text]).
Proof. eexists. reflexivity. Qed.

(** ** Importing the module without pandas *)

Section Imports.

Variable V : Type.
Variable E : Env V.
Hypothesis no_pandas : pandas_installed E = false.

(** X20: the guarded import inside the wrapper raises at once, in the world
    it started in: there is no fall back on the global policy. *)
Lemma confidence_without_pandas (name : string) (output : option Output)
    (number : Z) (w : World) :
  wrapper_measure V E name output number "confidence" w
  = (inl (Raise ImportError "You need Pandas to use this method"), w).
Proof.
  unfold wrapper_measure. cbn [String.eqb Ascii.eqb Bool.eqb].
  unfold bind at 1. unfold bind at 1.
  unfold try_import_pandas, import_pandas. rewrite no_pandas. reflexivity.
Qed.

(** The module itself cannot be loaded: whatever the method, nothing of the
    wrapper runs. *)
Lemma module_needs_pandas (name : string) (output : option Output)
    (number : Z) (method : string) (w : World) :
  decorated_call V E name output number method w
  = (inl (Raise ModuleNotFoundError "No module named 'pandas'"), w).
Proof.
  unfold decorated_call, bind, import_measurement, import_pandas.
  rewrite no_pandas. reflexivity.
Qed.

End Imports.

(** C9, on the code: where pandas is not installed, a program that imports
    the module and calls a function decorated with the global policy raises
    [ModuleNotFoundError] at the import, in the world it started in: the
    function is never called. *)
Theorem global_call_needs_pandas (V : Type) (E : Env V) (name : string)
    (output : option Output) (number : Z) (w : World) :
  pandas_installed E = false ->
  decorated_call V E name output number "global" w
  = (inl (Raise ModuleNotFoundError "No module named 'pandas'"), w).
Proof.
  intros H. apply module_needs_pandas. exact H.
Qed.

Lemma global_call_needs_pandas_witness :
  decorated_call Z (steady_env false) "f" None 3 "global" world0
  = (inl (Raise ModuleNotFoundError "No module named 'pandas'"), world0).
Proof.
  apply (global_call_needs_pandas Z (steady_env false) "f" None 3 world0).
  reflexivity.
Defined.

(** With pandas installed the same program reaches the measured function. *)
Example global_call_with_pandas :
  w_calls (snd (decorated_call Z (steady_env true) "f" None 3 "global" world0))
  = 3%nat.
Proof. reflexivity. Qed.

Lemma confidence_without_pandas_witness :
  wrapper_measure Z (steady_env false) "f" None 3 "confidence" world0
  = (inl (Raise ImportError "You need Pandas to use this method"), world0).
Proof.
  apply (confidence_without_pandas Z (steady_env false)). reflexivity.
Defined.

(** * Further properties of the sessions, the print output and the wrapper *)

Lemma fold_or_acc (l : list Z) (acc : bool) :
  fold_left (fun a x => a || (x >=? 0)) l acc
  = acc || fold_left (fun a x => a || (x >=? 0)) l false.
Proof.
  revert acc. induction l as [|x l IH]; intros acc; cbn [fold_left].
  - now rewrite orb_false_r.
  - rewrite IH. rewrite (IH (false || (x >=? 0))). cbn [orb].
    now rewrite orb_assoc.
Qed.

(** X1: sentinel detection over a concatenation: a series made of two parts
    has a non-negative element exactly when one of the parts has. *)
Theorem empty_energy_result_app (l1 l2 : list Z) :
  empty_energy_result (l1 ++ l2)
  = empty_energy_result l1 || empty_energy_result l2.
Proof.
  unfold empty_energy_result. rewrite fold_left_app. apply fold_or_acc.
Qed.

(** X2: the package and the DRAM series together hold exactly the elements
    of the delta: no reading is lost or taken twice. *)
Theorem slices_partition (delta : list Z) :
  Permutation (slice_step2 0 delta ++ slice_step2 1 delta) delta.
Proof.
  unfold slice_step2. cbn [skipn].
  induction delta as [| x | x y l IH] using list_pair_ind.
  - constructor.
  - cbn. apply Permutation_refl.
  - cbn [every_other skipn app]. cbn [skipn] in IH.
    constructor.
    destruct l as [|z l].
    + cbn. apply Permutation_refl.
    + cbn [skipn] in IH |- *.
      apply Permutation_trans with (y :: every_other (z :: l) ++ every_other l).
      * apply Permutation_sym, Permutation_middle.
      * constructor. exact IH.
Qed.

Lemma interleave_slices {A : Type} (p d : list A) :
  List.length p = List.length d ->
  slice_step2 0 (interleave p d) = p /\ slice_step2 1 (interleave p d) = d.
Proof.
  unfold slice_step2. cbn [skipn].
  revert d. induction p as [|x p IH]; intros [|y d] Hlen; try discriminate.
  - split; reflexivity.
  - injection Hlen as Hlen. destruct (IH d Hlen) as [Hp Hd].
    cbn [interleave every_other]. split.
    + now rewrite Hp.
    + destruct p as [|x' p]; destruct d as [|y' d]; try discriminate.
      * reflexivity.
      * cbn [interleave skipn every_other] in *. now rewrite Hd.
Qed.

(** X3: slicing undoes interleaving: from a list that alternates the elements
    of [p] and [d], the slices [[0::2]] and [[1::2]] recover [p] and [d]. *)
Theorem slices_of_interleave (p d : list Z) :
  List.length p = List.length d ->
  slice_step2 0 (interleave p d) = p /\ slice_step2 1 (interleave p d) = d.
Proof. apply interleave_slices. Qed.

Lemma slices_of_interleave_witness :
  slice_step2 0 (interleave [1; 2] [3; 4]) = [1; 2]
  /\ slice_step2 1 (interleave [1; 2] [3; 4]) = [3; 4].
Proof. apply (slices_of_interleave [1; 2] [3; 4]). reflexivity. Defined.

Lemma interleave_length {A : Type} (p d : list A) :
  List.length p = List.length d ->
  List.length (interleave p d) = (2 * List.length p)%nat.
Proof.
  revert d. induction p as [|x p IH]; intros [|y d] Hlen; try discriminate.
  - reflexivity.
  - injection Hlen as Hlen. cbn [interleave List.length]. rewrite (IH d Hlen). lia.
Qed.

Lemma diff_interleave (pe de pb db : list Z) :
  List.length pe = List.length de ->
  List.length pb = List.length db ->
  List.length pe = List.length pb ->
  diff (interleave pe de) (interleave pb db) = interleave (diff pe pb) (diff de db).
Proof.
  unfold diff.
  revert de pb db.
  induction pe as [|x pe IH]; intros [|y de] [|x' pb] [|y' db] H1 H2 H3;
    try discriminate; [reflexivity|].
  injection H1 as H1. injection H2 as H2. injection H3 as H3.
  cbn [interleave combine map fst snd]. now rewrite IH.
Qed.

Lemma diff_length (a b : list Z) :
  List.length a = List.length b -> List.length (diff a b) = List.length a.
Proof.
  intros H. unfold diff. rewrite length_map, length_combine. lia.
Qed.

Lemma diff_nth (a b : list Z) :
  List.length a = List.length b ->
  forall i, (i < List.length a)%nat -> nth i (diff a b) 0 = nth i a 0 - nth i b 0.
Proof.
  intros Hlen i Hi. unfold diff. set (f := fun p : Z * Z => fst p - snd p).
  rewrite (nth_indep _ 0 (f (0, 0)))
    by (rewrite length_map, length_combine; lia).
  rewrite map_nth, combine_nth by assumption. reflexivity.
Qed.

Section EndFacts.

Variable V : Type.
Variable E : Env V.

(** X4: with snapshots that alternate package and DRAM readings of the same
    sockets, [end] decides each domain from its own per-socket differences:
    the package result is absent when the package reading of every socket
    fell and is the series of package differences when one of them did not
    fall, and likewise the DRAM result from the DRAM readings. *)
Theorem Measurement_end_per_socket (self : Measurement) (w : World)
    (pb db pe de : list Z) (ts_begin : Z) :
  _energy_begin self = Some (interleave pb db) ->
  _ts_begin self = Some ts_begin ->
  energy E (w_energy_reads w) = interleave pe de ->
  List.length pb = List.length db ->
  List.length pe = List.length de ->
  List.length pe = List.length pb ->
  exists pkg dram pkg_result dram_result,
    (List.length pkg = List.length pe
     /\ forall i, (i < List.length pe)%nat -> nth i pkg 0 = nth i pe 0 - nth i pb 0)
    /\ (List.length dram = List.length de
        /\ forall i, (i < List.length de)%nat -> nth i dram 0 = nth i de 0 - nth i db 0)
    /\ fst (Measurement_end V E self w)
       = inr (time_ns E (w_time_reads w) - ts_begin, pkg_result, dram_result)
    /\ (pkg_result = None <-> Forall (fun x => x < 0) pkg)
    /\ (Exists (fun x => 0 <= x) pkg -> pkg_result = Some pkg)
    /\ (dram_result = None <-> Forall (fun x => x < 0) dram)
    /\ (Exists (fun x => 0 <= x) dram -> dram_result = Some dram).
Proof.
  intros Hb Ht He Hlb Hle Hl.
  exists (diff pe pb), (diff de db),
    (series_or_none (diff pe pb)), (series_or_none (diff de db)).
  split; [split; [apply diff_length; assumption | apply diff_nth; assumption]|].
  split; [split; [apply diff_length; congruence | apply diff_nth; congruence]|].
  split.
  { unfold Measurement_end, bind, call_time_ns, call_energy, getattr, lift, ret, raise.
    cbn -[slice_step2]. rewrite Hb, He. cbn -[slice_step2].
    unfold snapshot_sub. rewrite !interleave_length by assumption.
    rewrite Hl, Nat.eqb_refl. cbn -[slice_step2]. rewrite Ht. cbn -[slice_step2].
    fold (diff (interleave pe de) (interleave pb db)).
    rewrite diff_interleave by assumption.
    destruct (interleave_slices (diff pe pb) (diff de db)) as [Hp Hd].
    { rewrite !diff_length by congruence. congruence. }
    rewrite Hp, Hd. reflexivity. }
  split; [apply series_or_none_absent|].
  split; [apply series_or_none_kept|].
  split; [apply series_or_none_absent | apply series_or_none_kept].
Qed.

(** X5: [end] on a session that was never begun reads the clock and the
    sensor once and then raises [AttributeError] for [_energy_begin]. *)
Theorem Measurement_end_before_begin (self : Measurement) (w : World) :
  _energy_begin self = None ->
  Measurement_end V E self w
  = (inl (Raise AttributeError "'Measurement' object has no attribute '_energy_begin'"),
     Build_World (S (w_time_reads w)) (S (w_energy_reads w)) (w_calls w)
       (w_added w) (w_stdout w)).
Proof.
  intros H. unfold Measurement_end, bind, call_time_ns, call_energy, getattr.
  cbn. rewrite H. reflexivity.
Qed.

End EndFacts.

Lemma Measurement_end_per_socket_witness :
  exists pkg dram pkg_result dram_result,
    (List.length pkg = List.length [130; 201]%Z
     /\ forall i, (i < List.length [130; 201]%Z)%nat ->
          nth i pkg 0 = nth i [130; 201]%Z 0 - nth i [100; 200]%Z 0)
    /\ (List.length dram = List.length [6; -2]%Z
        /\ forall i, (i < List.length [6; -2]%Z)%nat ->
             nth i dram 0 = nth i [6; -2]%Z 0 - nth i [7; -1]%Z 0)
    /\ fst (Measurement_end Z two_socket_env begun_session world1)
       = inr (time_ns two_socket_env (w_time_reads world1) - 1000,
              pkg_result, dram_result)
    /\ (pkg_result = None <-> Forall (fun x => x < 0) pkg)
    /\ (Exists (fun x => 0 <= x) pkg -> pkg_result = Some pkg)
    /\ (dram_result = None <-> Forall (fun x => x < 0) dram)
    /\ (Exists (fun x => 0 <= x) dram -> dram_result = Some dram).
Proof.
  apply (Measurement_end_per_socket Z two_socket_env begun_session world1
           [100; 200] [7; -1] [130; 201] [6; -2] 1000); reflexivity.
Defined.

Lemma Measurement_end_before_begin_witness :
  Measurement_end Z (steady_env true)
    (Measurement_init Z (steady_env true) "f" None) world0
  = (inl (Raise AttributeError "'Measurement' object has no attribute '_energy_begin'"),
     Build_World 1 1 0 [] []).
Proof.
  apply (Measurement_end_before_begin Z (steady_env true)
           (Measurement_init Z (steady_env true) "f" None) world0).
  reflexivity.
Defined.

Lemma diff_self (s : list Z) : diff s s = repeat 0 (List.length s).
Proof.
  unfold diff. induction s as [|x s IH]; [reflexivity|].
  cbn [combine map fst snd List.length repeat]. rewrite IH. f_equal. lia.
Qed.

Lemma every_other_repeat {A : Type} (x : A) (n : nat) :
  every_other (repeat x n) = repeat x ((n + 1) / 2).
Proof.
  assert (H : forall k, (n <= k)%nat -> forall m, (m <= n)%nat ->
            every_other (repeat x m) = repeat x ((m + 1) / 2)).
  { intros k _. induction n as [n IH] using lt_wf_ind. intros m Hm.
    destruct m as [|[|m]]; try reflexivity.
    cbn [repeat every_other].
    replace (S (S m) + 1)%nat with ((m + 1) + 1 * 2)%nat by lia.
    rewrite Nat.div_add by lia. rewrite Nat.add_1_r. cbn [repeat]. f_equal.
    apply (IH m); lia. }
  apply (H n (le_n n) n (le_n n)).
Qed.

Lemma slice_repeat {A : Type} (x : A) (n : nat) :
  slice_step2 0 (repeat x n) = repeat x ((n + 1) / 2)
  /\ slice_step2 1 (repeat x n) = repeat x (n / 2).
Proof.
  unfold slice_step2. split.
  - apply every_other_repeat.
  - destruct n as [|n]; [reflexivity|].
    cbn [repeat skipn]. rewrite every_other_repeat, Nat.add_1_r. reflexivity.
Qed.

Lemma series_or_none_zeros (k : nat) :
  (1 <= k)%nat -> series_or_none (repeat 0 k) = Some (repeat 0 k).
Proof.
  intros Hk. unfold series_or_none.
  destruct k as [|k]; [lia|].
  assert (H : empty_energy_result (repeat 0 (S k)) = true).
  { apply empty_energy_result_true. cbn [repeat]. left. lia. }
  now rewrite H.
Qed.

Section SessionFacts.

Variable V : Type.
Variable E : Env V.

(** X6: when the sensor reads the same at [begin] and at [end], whatever the
    readings (sentinels included), both series are present and hold zeros:
    the sentinel rule does not see an unsupported domain. *)
Theorem unchanged_readings_give_zeros (self : Measurement) (w : World) :
  energy E (S (w_energy_reads w)) = energy E (w_energy_reads w) ->
  (2 <= List.length (energy E (w_energy_reads w)))%nat ->
  fst ((self' <- Measurement_begin V E self ;; Measurement_end V E self') w)
  = inr (time_ns E (S (w_time_reads w)) - time_ns E (w_time_reads w),
         Some (repeat 0 ((List.length (energy E (w_energy_reads w)) + 1) / 2)),
         Some (repeat 0 (List.length (energy E (w_energy_reads w)) / 2))).
Proof.
  intros Hsame Hlen.
  unfold Measurement_begin, Measurement_end, bind, call_time_ns, call_energy,
    getattr, lift, ret, raise.
  cbn -[slice_step2 Nat.div]. rewrite Hsame.
  set (s := energy E (w_energy_reads w)) in *.
  unfold snapshot_sub. rewrite Nat.eqb_refl. cbn -[slice_step2 Nat.div].
  fold (diff s s). rewrite diff_self.
  destruct (slice_repeat 0 (List.length s)) as [-> ->].
  rewrite !series_or_none_zeros; [reflexivity | | ].
  - apply Nat.div_str_pos. lia.
  - apply Nat.div_str_pos. lia.
Qed.

(** X7: entering a fresh session and leaving it without an exception never
    hands anything to an output: [__exit__] calls [end], which stores no
    result, so [export] raises [AttributeError] for [_results] (or [end]
    itself raises on snapshots of different lengths). *)
Theorem context_manager_never_exports (lbl : string) (output : option Output)
    (w : World) :
  exists e w',
    (self <- Measurement___enter__ V E (Measurement_init V E lbl output) ;;
     Measurement___exit__ V E self None) w = (inl e, w')
    /\ same_log w w'
    /\ (List.length (energy E (S (w_energy_reads w)))
        = List.length (energy E (w_energy_reads w)) ->
        e = Raise AttributeError "'Measurement' object has no attribute '_results'").
Proof.
  unfold Measurement___enter__, Measurement___exit__, Measurement_begin,
    Measurement_end, Measurement_export, bind, call_time_ns, call_energy,
    getattr, lift, ret, raise.
  cbn -[slice_step2 snapshot_sub].
  destruct (snapshot_sub _ _) as [e|delta] eqn:Hsub; cbn -[slice_step2].
  - eexists. eexists. split; [reflexivity|]. split; [split; reflexivity|].
    intros Hlen. exfalso.
    destruct (snapshot_sub_elementwise _ _ Hlen) as [d [Hd _]]. congruence.
  - eexists. eexists. split; [reflexivity|]. split; [split; reflexivity|].
    reflexivity.
Qed.

(** X8: [create_result] returns exactly when [begin] has set the timestamp
    and a duration confidence is given; it leaves the world as it is and
    stores the label, the begin timestamp and the duration in seconds, the
    series as given and the duration confidence divided by 1e9. *)
Theorem create_result_returns_iff (self self' : Measurement)
    (duration : num) (pkg dram : option (list num))
    (duration_conf : option num) (pkg_conf dram_conf : option (list num))
    (w w' : World) :
  Measurement_create_result self duration pkg dram duration_conf pkg_conf dram_conf w
  = (inr self', w')
  <-> exists ts dc,
        _ts_begin self = Some ts
        /\ duration_conf = Some dc
        /\ w' = w
        /\ self' = set_results self
                     (Some (Result.mk (label self)
                              (div_const (Int ts) 1000000000)
                              (div_const duration 1e9)
                              pkg dram (Some (div_const dc 1000000000))
                              pkg_conf dram_conf)).
Proof.
  unfold Measurement_create_result, bind, getattr, lift, div_opt, ret, raise.
  split.
  - destruct (_ts_begin self) as [ts|]; [|discriminate].
    destruct duration_conf as [dc|]; [|discriminate].
    intros H. inversion H; subst. exists ts, dc. repeat split.
  - intros [ts [dc [Hts [Hdc [-> ->]]]]]. rewrite Hts, Hdc. reflexivity.
Qed.

End SessionFacts.

Lemma unchanged_readings_give_zeros_witness :
  fst ((self' <- Measurement_begin Z idle_env begun_session ;;
        Measurement_end Z idle_env self') world0)
  = inr (time_ns idle_env 1 - time_ns idle_env 0,
         Some (repeat 0 ((List.length (energy idle_env 0) + 1) / 2)),
         Some (repeat 0 (List.length (energy idle_env 0) / 2))).
Proof.
  apply (unchanged_readings_give_zeros Z idle_env begun_session world0).
  - reflexivity.
  - cbn. lia.
Defined.

Example unchanged_sentinels_are_kept :
  fst ((self' <- Measurement_begin Z idle_env begun_session ;;
        Measurement_end Z idle_env self') world0)
  = inr (1, Some [0; 0], Some [0; 0]).
Proof. reflexivity. Qed.

Lemma string_app_assoc (a b c : string) : (a ++ b) ++ c = a ++ (b ++ c).
Proof. induction a as [|x a IH]; cbn; [reflexivity | now rewrite IH]. Qed.

Lemma string_app_nil_r (a : string) : a ++ "" = a.
Proof. induction a as [|x a IH]; cbn; [reflexivity | now rewrite IH]. Qed.

Lemma combine_truncate {A B : Type} (p : list A) (c : list B) :
  combine (firstn (List.length c) p) (firstn (List.length p) c) = combine p c.
Proof.
  revert c. induction p as [|x p IH]; intros [|y c]; try reflexivity.
  cbn [List.length firstn combine]. now rewrite IH.
Qed.

Section PrintFacts.

Variable F : Formatting.

Lemma print_energy_from_acc (l : list (num * num)) :
  forall (i : nat) (s : string),
    print_energy_from F i l s = s ++ print_energy_from F i l "".
Proof.
  induction l as [|[energy conf] l IH]; intros i s; cbn [print_energy_from].
  - now rewrite string_app_nil_r.
  - destruct (is_float energy).
    + rewrite IH. rewrite (IH (S i) ("" ++ _)).
      cbn [String.append]. now rewrite string_app_assoc.
    + rewrite IH. rewrite (IH (S i) ("" ++ _)).
      cbn [String.append]. now rewrite string_app_assoc.
Qed.

Lemma print_energy_from_app (l1 l2 : list (num * num)) :
  forall (i : nat) (s : string),
    print_energy_from F i (l1 ++ l2) s
    = print_energy_from F (i + List.length l1) l2 (print_energy_from F i l1 s).
Proof.
  induction l1 as [|[energy conf] l1 IH]; intros i s.
  - cbn. now rewrite Nat.add_0_r.
  - cbn [app print_energy_from List.length]. rewrite IH.
    f_equal. lia.
Qed.

(** X9: [print_energy] renders the pairs one after the other, numbering the
    sockets consecutively from 0: the text of a concatenation is the text of
    the first part followed by that of the second, numbered from the length
    of the first. *)
Theorem print_energy_app (l1 l2 : list (num * num)) :
  print_energy F (l1 ++ l2)
  = print_energy F l1 ++ print_energy_from F (List.length l1) l2 "".
Proof.
  unfold print_energy. rewrite print_energy_from_app.
  now rewrite print_energy_from_acc.
Qed.

(** X10: for energies that are not floats the confidence values are not
    printed: two confidence series of the same length give the same text. *)
Theorem print_energy_int_ignores_conf (p c c' : list num) :
  Forall (fun e => is_float e = false) p ->
  List.length c = List.length c' ->
  print_energy F (combine p c) = print_energy F (combine p c').
Proof.
  unfold print_energy. generalize 0%nat as i. generalize "" as s.
  intros s i Hp. revert c c' i s.
  induction Hp as [|e p He _ IH]; intros [|x c] [|x' c'] i s Hlen;
    try discriminate; try reflexivity.
  injection Hlen as Hlen. cbn [combine print_energy_from]. rewrite He.
  now apply IH.
Qed.

(** X11: the fancy rendering returns a text only for records whose duration
    has a confidence value and whose present series have a confidence
    series: on every other record it raises. *)
Theorem format_output_returns_only_printable (r : Result.t) (s : string) :
  _format_output F false (Some r) = inr s -> printable r.
Proof.
  unfold printable, _format_output, format_opt, zip_conf.
  destruct (Result.duration_conf r) as [dc|]; [|discriminate].
  destruct (Result.pkg r) as [p|]; destruct (Result.pkg_conf r) as [pc|];
    try discriminate;
    (destruct (Result.dram r) as [d|]; destruct (Result.dram_conf r) as [dcf|];
     try discriminate; intros _; repeat split; congruence).
Qed.

(** X12: [add] of the print output touches nothing but standard output: the
    counters and the log of records stay as they are; it prints one text when
    it returns and nothing when it raises. *)
Theorem PrintOutput_add_frame (raw : bool) (result : option Result.t) (w : World) :
  let run := PrintOutput_add F raw result w in
  w_time_reads (snd run) = w_time_reads w
  /\ w_energy_reads (snd run) = w_energy_reads w
  /\ w_calls (snd run) = w_calls w
  /\ w_added (snd run) = w_added w
  /\ match fst run with
     | inl _ => w_stdout (snd run) = w_stdout w
     | inr _ => exists s, w_stdout (snd run) = (w_stdout w ++ [s])%list
     end.
Proof.
  unfold PrintOutput_add, bind, lift, print, ret, raise. cbv zeta.
  destruct (_format_output F raw result) as [e|s]; cbn.
  - repeat split.
  - repeat split. exists s. reflexivity.
Qed.

(** X13: the package series and its confidence series are zipped: when one
    is longer than the other its extra entries are dropped without an error,
    and the record renders as the one with both series cut to the shorter
    length. *)
Theorem format_output_truncates_pkg (r : Result.t) (p c : list num) :
  Result.pkg r = Some p ->
  Result.pkg_conf r = Some c ->
  _format_output F false (Some r)
  = _format_output F false
      (Some (with_pkg r (Some (firstn (List.length c) p))
                        (Some (firstn (List.length p) c)))).
Proof.
  intros Hp Hc. unfold _format_output, with_pkg, zip_conf.
  cbn [Result.label Result.timestamp Result.duration Result.pkg Result.dram
       Result.duration_conf Result.pkg_conf Result.dram_conf].
  rewrite Hp, Hc, combine_truncate. reflexivity.
Qed.

(** X14: the DRAM section and the closing rule come together: a record with
    a DRAM series renders as the same record without it, followed by the DRAM
    section and one closing rule; without a DRAM series there is no closing
    rule. *)
Theorem format_output_dram_section (r : Result.t) (d c : list num) :
  Result.dram r = Some d ->
  Result.dram_conf r = Some c ->
  _format_output F false (Some r)
  = match _format_output F false (Some (without_dram r)) with
    | inl e => inl e
    | inr s0 =>
        inr ((s0 ++ nl ++ rule ++ nl ++ "DRAM :" ++ print_energy F (combine d c))
             ++ nl ++ rule)
    end.
Proof.
  intros Hd Hc. unfold _format_output, without_dram, zip_conf.
  cbn [Result.label Result.timestamp Result.duration Result.pkg Result.dram
       Result.duration_conf Result.pkg_conf Result.dram_conf].
  rewrite Hd, Hc.
  destruct (format_opt F (Result.duration_conf r) " .4e") as [e|dconf];
    [reflexivity|].
  destruct (Result.pkg r) as [p|]; [|reflexivity].
  destruct (Result.pkg_conf r) as [pc|]; reflexivity.
Qed.

End PrintFacts.

Lemma format_output_returns_only_printable_witness :
  printable record_with_conf.
Proof.
  eapply (format_output_returns_only_printable plain_formatting record_with_conf).
  reflexivity.
Defined.

Lemma print_energy_int_ignores_conf_witness :
  print_energy plain_formatting (combine [Int 5; Int 7] [Float 1; Float 2])
  = print_energy plain_formatting (combine [Int 5; Int 7] [Float 3; Float 4]).
Proof.
  apply (print_energy_int_ignores_conf plain_formatting
           [Int 5; Int 7] [Float 1; Float 2] [Float 3; Float 4]).
  - repeat constructor.
  - reflexivity.
Defined.

Lemma format_output_truncates_pkg_witness :
  _format_output plain_formatting false (Some record_short_conf)
  = _format_output plain_formatting false
      (Some (with_pkg record_short_conf
               (Some (firstn (List.length [Float 2]) [Float 12; Float 3]))
               (Some (firstn (List.length [Float 12; Float 3]) [Float 2])))).
Proof.
  apply (format_output_truncates_pkg plain_formatting record_short_conf
           [Float 12; Float 3] [Float 2]); reflexivity.
Defined.

Lemma format_output_dram_section_witness :
  _format_output plain_formatting false (Some record_with_conf)
  = match _format_output plain_formatting false
            (Some (without_dram record_with_conf)) with
    | inl e => inl e
    | inr s0 =>
        inr ((s0 ++ nl ++ rule ++ nl ++ "DRAM :"
                 ++ print_energy plain_formatting (combine [Int 9] [Float 8]))
             ++ nl ++ rule)
    end.
Proof.
  apply (format_output_dram_section plain_formatting record_with_conf
           [Int 9] [Float 8]); reflexivity.
Defined.

Section WrapperEdges.

Variable V : Type.
Variable E : Env V.

(** X15: with a count of zero or less the confidence policy runs nothing and
    raises [UnboundLocalError] for the table it never built: no reading, no
    call, nothing handed to an output. *)
Theorem confidence_without_runs (name : string) (output : option Output)
    (number : Z) (w : World) :
  pandas_installed E = true ->
  number <= 0 ->
  wrapper_measure V E name output number "confidence" w
  = (inl (Raise UnboundLocalError
            "local variable 'df' referenced before assignment"), w).
Proof.
  intros Hpandas Hn. unfold wrapper_measure. cbn [String.eqb Ascii.eqb Bool.eqb].
  unfold bind at 1. unfold bind at 1.
  unfold try_import_pandas, import_pandas. rewrite Hpandas. cbn [ret].
  unfold range. replace (Z.to_nat number) with 0%nat by lia.
  reflexivity.
Qed.

Lemma global_loop_raises (e : exn) (idx : list nat) :
  forall (j : nat) (val : option V) (w : World),
    (j < List.length idx)%nat ->
    (forall i, (i < j)%nat -> exists v, func E (w_calls w + i) = inr v) ->
    func E (w_calls w + j) = inl e ->
    for_each (global_body V E) idx val w
    = (inl e,
       Build_World (w_time_reads w) (w_energy_reads w) (w_calls w + S j)
         (w_added w) (w_stdout w)).
Proof.
  induction idx as [|i0 idx IH]; intros j val w Hj Hok Hraise; [cbn in Hj; lia|].
  cbn [for_each]. unfold bind at 1, global_body at 1, bind at 1, call_func, ret at 1.
  destruct j as [|j].
  - rewrite Nat.add_0_r in Hraise. rewrite Hraise.
    rewrite Nat.add_1_r. reflexivity.
  - destruct (Hok 0%nat ltac:(lia)) as [v Hv]. rewrite Nat.add_0_r in Hv.
    rewrite Hv.
    rewrite (IH j).
    + cbn [w_time_reads w_energy_reads w_calls w_added w_stdout].
      do 2 f_equal. lia.
    + cbn [List.length] in Hj. lia.
    + intros i Hi. cbn [w_calls]. destruct (Hok (S i) ltac:(lia)) as [x Hx].
      exists x. rewrite <- Hx. f_equal. lia.
    + cbn [w_calls]. rewrite <- Hraise. f_equal. lia.
Qed.

(** X16: under the global policy an exception of the measured function is
    raised to the caller as it is: the session was begun, the calls up to the
    raising one were made, [end] is not reached and nothing is exported. *)
Theorem global_policy_propagates (name : string) (output : option Output)
    (number : Z) (w : World) (j : nat) (e : exn) :
  (j < Z.to_nat number)%nat ->
  (forall i, (i < j)%nat -> exists v, func E (w_calls w + i) = inr v) ->
  func E (w_calls w + j) = inl e ->
  wrapper_measure V E name output number "global" w
  = (inl e,
     Build_World (S (w_time_reads w)) (S (w_energy_reads w)) (w_calls w + S j)
       (w_added w) (w_stdout w)).
Proof.
  intros Hj Hok Hraise.
  unfold wrapper_measure. cbn [String.eqb Ascii.eqb Bool.eqb].
  unfold bind at 1. unfold bind at 1.
  unfold Measurement_begin at 1, bind at 1, call_energy at 1.
  unfold bind at 1, call_time_ns at 1, ret at 1.
  unfold bind at 1.
  rewrite (global_loop_raises e (range number) j).
  - reflexivity.
  - unfold range. now rewrite length_seq.
  - exact Hok.
  - exact Hraise.
Qed.

End WrapperEdges.

Lemma confidence_without_runs_witness :
  wrapper_measure Z (steady_env true) "f" None 0 "confidence" world0
  = (inl (Raise UnboundLocalError
            "local variable 'df' referenced before assignment"), world0).
Proof.
  apply (confidence_without_runs Z (steady_env true) "f" None 0 world0).
  - reflexivity.
  - lia.
Defined.

Lemma global_policy_propagates_witness :
  wrapper_measure Z (raising_env 1) "f" None 3 "global" world0
  = (inl (Raise KeyError "missing"),
     Build_World (S (w_time_reads world0)) (S (w_energy_reads world0))
       (w_calls world0 + 2) (w_added world0) (w_stdout world0)).
Proof.
  apply (global_policy_propagates Z (raising_env 1) "f" None 3 world0 1
           (Raise KeyError "missing")).
  - cbn. lia.
  - intros i Hi. exists 0. replace i with 0%nat by lia. reflexivity.
  - reflexivity.
Defined.

Section ConfidenceOutputs.

Variable V : Type.
Variable E : Env V.
Variable w : World.
Variables k m : nat.
Variable number : Z.
Variable smp : nat -> sample.
Variable val : nat -> V.
Variable n : nat.
Hypothesis number_n : Z.to_nat number = n.
Hypothesis runs_ok :
  forall i, (i < n)%nat -> run_yields V E w i (val i) (smp i) /\ well_shaped k m (smp i).

(** The confidence policy from end to end for any output: when every run goes
    through, the record is handed to the output the session was given, and
    the wrapper returns the last value of the function when [add] returns. *)
Lemma confidence_policy_hands_record (name : string) (output : option Output) :
  pandas_installed E = true ->
  (0 < n)%nat ->
  wrapper_measure V E name output number "confidence" w
  = match
      call_add (chosen_output (formatting E) output)
        (Some (confidence_record name (time_ns E (w_time_reads w + 2 * (n - 1)))
                 k m (map smp (seq 0 n))))
        (world_after w n)
    with
    | (inl e, w') => (inl e, w')
    | (inr _, w') => (inr (val (n - 1)), w')
    end.
Proof.
  intros Hpandas Hn.
  unfold wrapper_measure. cbn [String.eqb Ascii.eqb Bool.eqb].
  unfold bind at 1. unfold bind at 1.
  unfold try_import_pandas, import_pandas. rewrite Hpandas. cbn [ret].
  unfold bind at 1.
  destruct (confidence_loop_ok V E w k m number smp val n number_n runs_ok
              n 0 (Measurement_init V E name output) None None)
    as [sensor' [Hrun [Hl [Ho Ht]]]]; [assumption | reflexivity | congruence |].
  replace (world_after w 0) with w in Hrun
    by (unfold world_after; destruct w; cbn; f_equal; lia).
  unfold range. rewrite number_n, Hrun.
  unfold bind at 1, local at 1, ret at 1.
  rewrite partial_table_full.
  unfold bind at 1, lift at 1.
  rewrite (compute_stats_sample_table k m _
             (samples_well_shaped V E w k m number smp val n number_n runs_ok)).
  cbv zeta. unfold ret at 1.
  unfold bind at 1, Measurement_create_result.
  unfold bind at 1, getattr at 1. rewrite Ht. unfold ret at 1.
  unfold bind at 1, lift at 1, div_opt, ret at 1 2 3.
  unfold Measurement_export, bind at 1.
  unfold bind at 1, getattr. cbn [_results set_results ret _output].
  rewrite Ho, Hl. cbn [Measurement_init _output label].
  unfold confidence_record, chosen_output.
  destruct output as [o|];
    (destruct (call_add _ _ _) as [[e|u] w']; reflexivity).
Qed.

End ConfidenceOutputs.

Section FixedLength.

Variable V : Type.
Variable E : Env V.
Variable w : World.
Variable number : Z.
Variable n : nat.
Variable L : nat.
Variable val : nat -> V.

Hypothesis number_n : Z.to_nat number = n.

(** Every snapshot the loop reads has [L] entries. *)
Hypothesis fixed_length :
  forall i, (i < 2 * n)%nat -> List.length (energy E (w_energy_reads w + i)) = L.

(** Every call of the measured function returns. *)
Hypothesis calls_return :
  forall i, (i < n)%nat -> func E (w_calls w + i) = inr (val i).

(** In every run both domains have a non-negative delta on some socket. *)
Hypothesis domains_present :
  forall i, (i < n)%nat ->
    Exists (fun x => 0 <= x) (slice_step2 0 (run_delta V E w i))
    /\ Exists (fun x => 0 <= x) (slice_step2 1 (run_delta V E w i)).

Lemma fixed_length_runs_ok (i : nat) :
  (i < n)%nat ->
  run_yields V E w i (val i) (run_sample V E w i)
  /\ well_shaped ((L + 1) / 2) (L / 2) (run_sample V E w i).
Proof.
  intros Hi.
  assert (H1 : List.length (energy E (w_energy_reads w + 2 * i + 1)) = L).
  { rewrite <- Nat.add_assoc. apply fixed_length. lia. }
  assert (H0 : List.length (energy E (w_energy_reads w + 2 * i)) = L).
  { apply fixed_length. lia. }
  assert (Hd : List.length (run_delta V E w i) = L).
  { unfold run_delta. rewrite diff_length; congruence. }
  destruct (domains_present i Hi) as [Hp Hdr].
  split.
  - split; [apply calls_return; assumption|]. split; [reflexivity|].
    exists (run_delta V E w i). split.
    + unfold snapshot_sub, run_delta, diff. rewrite H1, H0, Nat.eqb_refl. reflexivity.
    + split; apply series_or_none_kept; assumption.
  - unfold well_shaped, run_sample. cbn [fst snd].
    rewrite slice_even_length, slice_odd_length, Hd. split; reflexivity.
Qed.

(** X17: the confidence policy on a sensor whose snapshots all have [L]
    entries: when every call returns and both domains have a non-negative
    delta in every run, the table layout holds by itself, exactly one record
    is handed to the chosen output, built from the runs' durations and
    series, and the wrapper returns the function's last value if [add]
    returns and raises what [add] raises otherwise. *)
Theorem confidence_policy_fixed_length (name : string) (output : option Output) :
  pandas_installed E = true ->
  (0 < n)%nat ->
  wrapper_measure V E name output number "confidence" w
  = match
      call_add (chosen_output (formatting E) output)
        (Some (confidence_record name (time_ns E (w_time_reads w + 2 * (n - 1)))
                 ((L + 1) / 2) (L / 2) (map (run_sample V E w) (seq 0 n))))
        (world_after w n)
    with
    | (inl e, w') => (inl e, w')
    | (inr _, w') => (inr (val (n - 1)), w')
    end.
Proof.
  intros Hpandas Hn.
  apply (confidence_policy_hands_record V E w ((L + 1) / 2) (L / 2) number
           (run_sample V E w) val n number_n fixed_length_runs_ok name output
           Hpandas Hn).
Qed.

End FixedLength.

Lemma confidence_policy_fixed_length_witness :
  wrapper_measure Z (steady_env true) "f" (Some null_output) 3 "confidence" world0
  = match
      call_add (chosen_output (formatting (steady_env true)) (Some null_output))
        (Some (confidence_record "f"
                 (time_ns (steady_env true) (w_time_reads world0 + 2 * (3 - 1)))
                 ((2 + 1) / 2) (2 / 2)
                 (map (run_sample Z (steady_env true) world0) (seq 0 3))))
        (world_after world0 3)
    with
    | (inl e, w') => (inl e, w')
    | (inr _, w') => (inr (Z.of_nat (3 - 1)), w')
    end.
Proof.
  apply (confidence_policy_fixed_length Z (steady_env true) world0 3 3 2
           (fun i => Z.of_nat i)).
  - reflexivity.
  - intros i _. reflexivity.
  - intros i _. reflexivity.
  - intros i Hi.
    assert (Hcases : i = 0%nat \/ i = 1%nat \/ i = 2%nat) by lia.
    destruct Hcases as [-> | [-> | ->]]; split; left; cbn; lia.
  - reflexivity.
  - lia.
Defined.

Lemma Series_mean_single (x : Z) : Series_mean [x] = Float (IZR x).
Proof.
  unfold Series_mean. cbn [map sum_R fold_right List.length INR]. f_equal. field.
Qed.

Section SingleRun.

Variable V : Type.
Variable E : Env V.
Variable w : World.
Variable v : V.

(** X18: with a single run the confidence policy has no spread to estimate:
    the duration (a standard deviation) and every confidence field of the
    record are not-a-number, and the package and DRAM fields are the
    readings of the run itself. *)
Theorem single_run_gives_nan (name : string) :
  pandas_installed E = true ->
  func E (w_calls w) = inr v ->
  List.length (energy E (w_energy_reads w + 1))
  = List.length (energy E (w_energy_reads w)) ->
  Exists (fun x => 0 <= x) (slice_step2 0 (run_delta V E w 0)) ->
  Exists (fun x => 0 <= x) (slice_step2 1 (run_delta V E w 0)) ->
  exists r text,
    wrapper_measure V E name None 1 "confidence" w
    = (inr v,
       Build_World (w_time_reads w + 2) (w_energy_reads w + 2) (w_calls w + 1)
         (w_added w ++ [Some r]) (w_stdout w ++ [text]))
    /\ Result.duration r = NaN
    /\ Result.duration_conf r = Some NaN
    /\ Result.pkg r
       = Some (map (fun x => Float (IZR x)) (slice_step2 0 (run_delta V E w 0)))
    /\ Result.dram r
       = Some (map (fun x => Float (IZR x)) (slice_step2 1 (run_delta V E w 0)))
    /\ Result.pkg_conf r
       = Some (map (fun _ => NaN) (slice_step2 0 (run_delta V E w 0)))
    /\ Result.dram_conf r
       = Some (map (fun _ => NaN) (slice_step2 1 (run_delta V E w 0))).
Proof.
  intros Hpandas Hv Hlen Hp Hd.
  set (L := List.length (energy E (w_energy_reads w))).
  assert (Hrun :
    wrapper_measure V E name None 1 "confidence" w
    = match
        call_add (chosen_output (formatting E) None)
          (Some (confidence_record name (time_ns E (w_time_reads w + 2 * (1 - 1)))
                   ((L + 1) / 2) (L / 2) (map (run_sample V E w) (seq 0 1))))
          (world_after w 1)
      with
      | (inl e, w') => (inl e, w')
      | (inr _, w') => (inr ((fun _ => v) (1 - 1)%nat), w')
      end).
  { apply (confidence_policy_hands_record V E w ((L + 1) / 2) (L / 2) 1
             (run_sample V E w) (fun _ => v) 1 eq_refl);
      [ | exact Hpandas | lia].
    apply (fixed_length_runs_ok V E w 1 1 L (fun _ => v) eq_refl).
    - intros i Hi. assert (Hi' : i = 0%nat \/ i = 1%nat) by lia.
      destruct Hi' as [-> | ->]; [now rewrite Nat.add_0_r | exact Hlen].
    - intros i Hi. replace i with 0%nat by lia. now rewrite Nat.add_0_r.
    - intros i Hi. replace i with 0%nat by lia. split; assumption. }
  rewrite Hrun. clear Hrun.
  assert (Hk : List.length (slice_step2 0 (run_delta V E w 0)) = ((L + 1) / 2)%nat).
  { rewrite slice_even_length. unfold run_delta.
    rewrite diff_length; rewrite !Nat.add_0_r; cbn [Nat.mul Nat.add];
      rewrite ?Nat.add_0_r; [|exact Hlen]. rewrite Hlen. reflexivity. }
  assert (Hm : List.length (slice_step2 1 (run_delta V E w 0)) = (L / 2)%nat).
  { rewrite slice_odd_length. unfold run_delta.
    rewrite diff_length; rewrite !Nat.add_0_r; cbn [Nat.mul Nat.add];
      rewrite ?Nat.add_0_r; [|exact Hlen]. rewrite Hlen. reflexivity. }
  rewrite <- Hk, <- Hm.
  set (p := slice_step2 0 (run_delta V E w 0)).
  set (d := slice_step2 1 (run_delta V E w 0)).
  unfold chosen_output, call_add, PrintOutput. cbn [add].
  unfold PrintOutput_add, bind, lift.
  match goal with |- context [_format_output ?F false (Some ?r)] =>
    destruct (_format_output F false (Some r)) as [e|text] eqn:Hfmt;
      [discriminate Hfmt|]; exists r, text
  end.
  split.
  { unfold print, ret, world_after.
    cbn [w_time_reads w_energy_reads w_calls w_added w_stdout].
    repeat f_equal; lia. }
  unfold confidence_record, run_sample, durations, pkg_column, dram_column.
  cbn [seq map fst snd List.length Result.duration Result.duration_conf
       Result.pkg Result.dram Result.pkg_conf Result.dram_conf].
  fold p. fold d.
  change (Series_std [_]) with NaN. cbn [conf_of div_const].
  repeat split.
  - f_equal. rewrite <- (map_nth_seq (fun x => Float (IZR x)) 0 p).
    apply map_ext. intros j. apply Series_mean_single.
  - f_equal. rewrite <- (map_nth_seq (fun x => Float (IZR x)) 0 d).
    apply map_ext. intros j. apply Series_mean_single.
  - f_equal. rewrite <- (map_nth_seq (fun _ => NaN) 0 p). reflexivity.
  - f_equal. rewrite <- (map_nth_seq (fun _ => NaN) 0 d). reflexivity.
Qed.

End SingleRun.

Lemma single_run_gives_nan_witness :
  exists r text,
    wrapper_measure Z (steady_env true) "f" None 1 "confidence" world0
    = (inr 0,
       Build_World (w_time_reads world0 + 2) (w_energy_reads world0 + 2)
         (w_calls world0 + 1) (w_added world0 ++ [Some r])
         (w_stdout world0 ++ [text]))
    /\ Result.duration r = NaN
    /\ Result.duration_conf r = Some NaN
    /\ Result.pkg r
       = Some (map (fun x => Float (IZR x))
                 (slice_step2 0 (run_delta Z (steady_env true) world0 0)))
    /\ Result.dram r
       = Some (map (fun x => Float (IZR x))
                 (slice_step2 1 (run_delta Z (steady_env true) world0 0)))
    /\ Result.pkg_conf r
       = Some (map (fun _ => NaN)
                 (slice_step2 0 (run_delta Z (steady_env true) world0 0)))
    /\ Result.dram_conf r
       = Some (map (fun _ => NaN)
                 (slice_step2 1 (run_delta Z (steady_env true) world0 0))).
Proof.
  apply (single_run_gives_nan Z (steady_env true) world0 0 "f").
  - reflexivity.
  - reflexivity.
  - reflexivity.
  - left. cbn. lia.
  - left. cbn. lia.
Defined.

Lemma for_each_app {S : Type} (body : nat -> S -> M S) (l1 l2 : list nat) :
  forall (s : S) (w : World),
    for_each body (l1 ++ l2) s w
    = (s' <- for_each body l1 s ;; for_each body l2 s') w.
Proof.
  induction l1 as [|i l1 IH]; intros s w.
  - reflexivity.
  - cbn [app for_each]. unfold bind.
    destruct (body i s w) as [[e|s1] w1]; [reflexivity|].
    rewrite IH. reflexivity.
Qed.

Lemma iloc_set_partial_table (k m n : nat) (smp : nat -> sample) (i : nat) :
  (i < n)%nat ->
  well_shaped k m (smp i) ->
  iloc_set (partial_table k m n smp i) i (sample_row (smp i))
  = inr (partial_table k m n smp (S i)).
Proof.
  intros Hi [Hp Hd]. unfold iloc_set, partial_table. cbn [rows columns].
  rewrite length_app, length_map, length_seq, repeat_length.
  destruct (Nat.leb_spec (i + (n - i)) i) as [H|_]; [lia|].
  destruct (smp i) as [[dur p] d] eqn:Hs. cbn in Hp, Hd.
  cbn [sample_row List.length]. rewrite length_app, sample_columns_length, Hp, Hd.
  rewrite Nat.eqb_refl. f_equal. f_equal.
  replace (n - i)%nat with (S (n - S i)) by lia. cbn [repeat].
  replace i with (List.length (map (fun i0 => Some (sample_row (smp i0))) (seq 0 i))) at 1
    by (rewrite length_map, length_seq; reflexivity).
  rewrite set_nth_middle, seq_S, map_app. cbn [map Nat.add].
  rewrite Hs, <- app_assoc. reflexivity.
Qed.

Section FailingRun.

Variable V : Type.
Variable E : Env V.
Variable w : World.
Variables k m : nat.
Variable number : Z.
Variable smp : nat -> sample.
Variable val : nat -> V.
Variable n : nat.
Hypothesis number_n : Z.to_nat number = n.

Lemma confidence_body_run (i : nat) (sensor : Measurement)
    (df : option DataFrame) (v : option V) :
  (i < n)%nat ->
  run_yields V E w i (val i) (smp i) ->
  well_shaped k m (smp i) ->
  (i <> 0%nat -> df = Some (partial_table k m n smp i)) ->
  confidence_body V E number i (sensor, df, v) (world_after w i)
  = (inr (set_begin sensor (energy E (w_energy_reads w + 2 * i))
            (time_ns E (w_time_reads w + 2 * i)),
          Some (partial_table k m n smp (S i)), Some (val i)),
     world_after w (S i)).
Proof.
  intros Hi [Hf [Hdur [delta [Hsub [Hp Hd]]]]] Hshape Hdf.
  pose proof Hshape as [Hk Hm].
  unfold confidence_body, Measurement_begin, Measurement_end, bind,
    call_energy, call_time_ns, call_func, getattr, lift, local, ret, raise.
  cbn -[slice_step2 Nat.mul sample_columns].
  rewrite Hf. cbn -[slice_step2 Nat.mul sample_columns].
  replace (S (w_energy_reads w + 2 * i)) with (w_energy_reads w + 2 * i + 1)%nat by lia.
  rewrite Hsub. cbn -[slice_step2 Nat.mul sample_columns].
  rewrite Hp, Hd.
  replace (S (w_time_reads w + 2 * i)) with (w_time_reads w + 2 * i + 1)%nat by lia.
  rewrite <- Hdur.
  assert (Hrow : (fst (fst (smp i)) :: snd (fst (smp i)) ++ snd (smp i))%list
                 = sample_row (smp i)) by (destruct (smp i) as [[? ?] ?]; reflexivity).
  assert (Hw : Build_World (S (w_time_reads w + 2 * i + 1)) (S (w_energy_reads w + 2 * i + 1))
                 (S (w_calls w + i)) (w_added w) (w_stdout w) = world_after w (S i)).
  { unfold world_after. f_equal; lia. }
  destruct i as [|i].
  - cbn -[slice_step2 Nat.mul sample_columns]. rewrite Hrow.
    rewrite Hk, Hm.
    unfold DataFrame_new, range. rewrite number_n, map_const_seq.
    assert (Hnew : {| columns := sample_columns k m; rows := repeat None n |}
                   = partial_table k m n smp 0).
    { unfold partial_table. cbn [seq map app]. rewrite Nat.sub_0_r. reflexivity. }
    rewrite Hnew, (iloc_set_partial_table k m n smp 0 Hi Hshape), Hw. reflexivity.
  - cbn -[slice_step2 Nat.mul sample_columns]. rewrite Hrow.
    rewrite (Hdf ltac:(discriminate)).
    rewrite (iloc_set_partial_table k m n smp (S i) Hi Hshape), Hw. reflexivity.
Qed.

Lemma confidence_body_raises (i : nat) (sensor : Measurement)
    (df : option DataFrame) (v : option V) (e : exn) :
  func E (w_calls w + i) = inl e ->
  confidence_body V E number i (sensor, df, v) (world_after w i)
  = (inl e,
     Build_World (w_time_reads w + 2 * i + 1) (w_energy_reads w + 2 * i + 1)
       (w_calls w + i + 1) (w_added w) (w_stdout w)).
Proof.
  intros Hraise.
  unfold confidence_body, Measurement_begin, bind,
    call_energy, call_time_ns, call_func, ret.
  cbn -[Nat.mul]. rewrite Hraise. f_equal. f_equal; lia.
Qed.

Variable j : nat.
Hypothesis j_lt_n : (j < n)%nat.
Hypothesis earlier_runs :
  forall i, (i < j)%nat -> run_yields V E w i (val i) (smp i) /\ well_shaped k m (smp i).

Lemma confidence_prefix_ok (len : nat) :
  forall (a : nat) (sensor : Measurement) (df : option DataFrame) (v : option V),
    (a + len = j)%nat ->
    (a <> 0%nat -> df = Some (partial_table k m n smp a)) ->
    exists sensor' df' v',
      for_each (confidence_body V E number) (seq a len) (sensor, df, v) (world_after w a)
      = (inr (sensor', df', v'), world_after w j)
      /\ (j <> 0%nat -> df' = Some (partial_table k m n smp j)).
Proof.
  induction len as [|len IH]; intros a sensor df v Ha Hdf.
  - cbn [seq for_each ret]. replace j with a by lia.
    exists sensor, df, v. split; [reflexivity | exact Hdf].
  - cbn [seq for_each]. unfold bind at 1.
    destruct (earlier_runs a ltac:(lia)) as [Hrun Hshape].
    rewrite (confidence_body_run a sensor df v) by (assumption || lia).
    apply IH; [lia | reflexivity].
Qed.

(** X19: under the confidence policy an exception of the measured function in
    run [j], after [j] runs that went through, is raised to the caller as it
    is: the rows of the completed runs are lost and nothing is exported. *)
Theorem confidence_policy_propagates (name : string) (output : option Output)
    (e : exn) :
  pandas_installed E = true ->
  func E (w_calls w + j) = inl e ->
  wrapper_measure V E name output number "confidence" w
  = (inl e,
     Build_World (w_time_reads w + 2 * j + 1) (w_energy_reads w + 2 * j + 1)
       (w_calls w + j + 1) (w_added w) (w_stdout w)).
Proof.
  intros Hpandas Hraise.
  unfold wrapper_measure. cbn [String.eqb Ascii.eqb Bool.eqb].
  unfold bind at 1. unfold bind at 1.
  unfold try_import_pandas, import_pandas. rewrite Hpandas. cbn [ret].
  unfold bind at 1.
  unfold range. rewrite number_n.
  replace n with (j + (n - j))%nat at 1 by lia.
  rewrite seq_app, for_each_app. unfold bind at 1.
  destruct (confidence_prefix_ok j 0 (Measurement_init V E name output) None None)
    as [sensor' [df' [v' [Hrun _]]]]; [reflexivity | congruence |].
  replace (world_after w 0) with w in Hrun
    by (unfold world_after; destruct w; cbn; f_equal; lia).
  rewrite Hrun.
  replace (n - j)%nat with (S (n - S j)) by lia.
  cbn [seq for_each Nat.add]. unfold bind at 1.
  rewrite (confidence_body_raises j sensor' df' v' e Hraise).
  reflexivity.
Qed.

End FailingRun.

Lemma confidence_policy_propagates_witness :
  wrapper_measure Z (raising_env 1) "f" None 3 "confidence" world0
  = (inl (Raise KeyError "missing"),
     Build_World (w_time_reads world0 + 2 * 1 + 1) (w_energy_reads world0 + 2 * 1 + 1)
       (w_calls world0 + 1 + 1) (w_added world0) (w_stdout world0)).
Proof.
  apply (confidence_policy_propagates Z (raising_env 1) world0 1 1 3
           (run_sample Z (raising_env 1) world0) (fun i => Z.of_nat i) 3
           eq_refl 1).
  - lia.
  - intros i Hi. replace i with 0%nat by lia.
    split; [|split; reflexivity].
    split; [reflexivity|]. split; [reflexivity|].
    exists [10; 4]. repeat split.
  - reflexivity.
  - reflexivity.
Defined.
